(** * Exercise tracker: the Express/Mongoose handlers of [src/server.js]

    The four endpoints of the application are embedded as functions that
    take the request fields and the contents of the two MongoDB
    collections and give back the HTTP response and the new contents.
    Three layers:

    - [JS]: the ECMAScript built-ins the handlers call ([parseInt],
      [String.prototype.trim], [Date.prototype.setHours],
      [Date.prototype.toDateString], truthiness of a request field);
    - [User], [Exercise]: the Mongoose models (collections in insertion
      order, [findOne], [findById], [find], [save]);
    - [Server]: the handlers of [src/server.js]; [Router] and [App2]: the
      handlers of the two other copies of the application.

    Request fields are strings, as [express.urlencoded] and the query
    string deliver them; an absent field is [None].  A field of another
    type, which a JSON body or a bracketed form key can carry, is outside
    [Server] and [App2]; [addExerciseBody] adds it for the date of an
    exercise.  The database is taken to be reachable: a call on a model
    is rejected only where Mongoose itself refuses it (a cast, a required
    path, a unique index).  A request runs to its end before the next one
    starts: the awaits of one handler are not interleaved with those of
    another.  [JS.parseInt] gives the exact integer, which beyond 2^53 is
    not the double the engine gives; local time is UTC plus a fixed
    offset, so a zone that changes its offset is not covered. *)

From Stdlib Require Import ZArith List String Ascii Bool Lia.
From Stdlib Require Import Numbers.DecimalString.
Import ListNotations.

Open Scope string_scope.
Open Scope Z_scope.

(** ** ECMAScript built-ins *)

Module JS.

(** A request field: [undefined] or a string.  [truthy] is [ToBoolean]:
    [undefined] and the empty string are falsy. *)
Definition truthy (v : option string) : bool :=
  match v with
  | None => false
  | Some s => negb (s =? "")%string
  end.

(** [ToString] of a request field. *)
Definition ToString (v : option string) : string :=
  match v with
  | None => "undefined"
  | Some s => s
  end.

(** White space and line terminators among the code units below 256. *)
Definition isWhiteSpace (c : ascii) : bool :=
  let n := Z.of_N (N_of_ascii c) in
  ((9 <=? n) && (n <=? 13)) || (n =? 32) || (n =? 160).

Fixpoint trimStart (s : string) : string :=
  match s with
  | EmptyString => EmptyString
  | String c s' => if isWhiteSpace c then trimStart s' else s
  end.

Definition reverse (s : string) : string :=
  string_of_list_ascii (List.rev (list_ascii_of_string s)).

Definition trimEnd (s : string) : string := reverse (trimStart (reverse s)).

Definition trim (s : string) : string := trimEnd (trimStart s).

(** *** parseInt

    [parseInt(string)] without a radix: leading white space is skipped, a
    sign is read, a [0x]/[0X] prefix selects radix 16, and the longest
    prefix of digits is converted.  [None] stands for [NaN].  The result
    is the mathematical integer; the rounding to a double that sets in
    above 2^53 is not modelled. *)

Definition digitValue (c : ascii) : option Z :=
  let n := Z.of_N (N_of_ascii c) in
  if (48 <=? n) && (n <=? 57) then Some (n - 48)
  else if (97 <=? n) && (n <=? 122) then Some (n - 87)
  else if (65 <=? n) && (n <=? 90) then Some (n - 55)
  else None.

Fixpoint parseDigits (R : Z) (s : string) (acc : option Z) : option Z :=
  match s with
  | EmptyString => acc
  | String c s' =>
      match digitValue c with
      | Some d =>
          if d <? R
          then parseDigits R s' (Some (R * match acc with Some a => a | None => 0 end + d))
          else acc
      | None => acc
      end
  end.

Definition parseInt (input : string) : option Z :=
  let str := trimStart input in
  let '(sign, str) :=
    match str with
    | String "-" r => (-1, r)
    | String "+" r => (1, r)
    | _ => (1, str)
    end in
  let '(R, str) :=
    match str with
    | String "0" (String "x" r) => (16, r)
    | String "0" (String "X" r) => (16, r)
    | _ => (10, str)
    end in
  option_map (Z.mul sign) (parseDigits R str None).

(** *** Time values

    A valid time value is a number of milliseconds since the epoch; an
    invalid [Date] ([NaN]) is [None] wherever the source tests for it. *)

Definition msPerDay : Z := 86400000.

Definition Day (t : Z) : Z := t / msPerDay.

Definition TimeWithinDay (t : Z) : Z := t mod msPerDay.

(** 0 is Sunday; 1 January 1970 was a Thursday. *)
Definition WeekDay (t : Z) : Z := (Day t + 4) mod 7.

Definition MakeTime (hour min sec ms : Z) : Z :=
  hour * 3600000 + min * 60000 + sec * 1000 + ms.

Definition MakeDate (day time : Z) : Z := day * msPerDay + time.

(** Day number of a proleptic Gregorian date, and back. *)
Definition days_from_civil (y m d : Z) : Z :=
  let y := if m <=? 2 then y - 1 else y in
  let era := y / 400 in
  let yoe := y - era * 400 in
  let doy := (153 * (if 2 <? m then m - 3 else m + 9) + 2) / 5 + d - 1 in
  let doe := yoe * 365 + yoe / 4 - yoe / 100 + doy in
  era * 146097 + doe - 719468.

Definition civil_from_days (z : Z) : Z * Z * Z :=
  let z := z + 719468 in
  let era := z / 146097 in
  let doe := z - era * 146097 in
  let yoe := (doe - doe / 1460 + doe / 36524 - doe / 146096) / 365 in
  let y := yoe + era * 400 in
  let doy := doe - (365 * yoe + yoe / 4 - yoe / 100) in
  let mp := (5 * doy + 2) / 153 in
  let d := doy - (153 * mp + 2) / 5 + 1 in
  let m := if mp <? 10 then mp + 3 else mp - 9 in
  (if m <=? 2 then y + 1 else y, m, d).

Definition YearFromTime (t : Z) : Z := fst (fst (civil_from_days (Day t))).

(** 0 is January, as in ECMAScript. *)
Definition MonthFromTime (t : Z) : Z := snd (fst (civil_from_days (Day t))) - 1.

Definition DateFromTime (t : Z) : Z := snd (civil_from_days (Day t)).

Definition weekdayNames : list string :=
  ["Sun"; "Mon"; "Tue"; "Wed"; "Thu"; "Fri"; "Sat"].

Definition monthNames : list string :=
  ["Jan"; "Feb"; "Mar"; "Apr"; "May"; "Jun";
   "Jul"; "Aug"; "Sep"; "Oct"; "Nov"; "Dec"].

Definition weekdayName (w : Z) : string := nth (Z.to_nat w) weekdayNames "".

Definition monthName (m : Z) : string := nth (Z.to_nat m) monthNames "".

Fixpoint zeros (n : nat) : string :=
  match n with
  | O => ""
  | S n' => String "0" (zeros n')
  end.

(** [n] in decimal, padded with zeros on the left to [minLength] digits;
    [n] is not negative. *)
Definition ToZeroPaddedDecimalString (n : Z) (minLength : nat) : string :=
  let str := NilZero.string_of_uint (N.to_uint (Z.to_N n)) in
  zeros (minLength - String.length str) ++ str.

(** The date part of a local time value: ["Www Mmm DD YYYY"]. *)
Definition DateString (t : Z) : string :=
  let yv := YearFromTime t in
  weekdayName (WeekDay t) ++ " " ++ monthName (MonthFromTime t) ++ " "
  ++ ToZeroPaddedDecimalString (DateFromTime t) 2 ++ " "
  ++ (if 0 <=? yv then "" else "-") ++ ToZeroPaddedDecimalString (Z.abs yv) 4.

(** *** The host

    What the handlers take from the process they run in: the parser
    behind [new Date(string)] (its fallback formats are left to the
    engine), the offset of local time from UTC in milliseconds (a zone
    with a fixed offset), and Mongoose's cast of a string to an
    [ObjectId], whose result is the identifier in canonical form. *)
Record Runtime : Type := {
  Date_parse : string -> option Z;
  LocalTZA : Z;
  castObjectId : string -> option string
}.

Section LocalTime.
Variable rt : Runtime.

Definition LocalTime (t : Z) : Z := t + LocalTZA rt.

Definition UTC (t : Z) : Z := t - LocalTZA rt.

(** [date.setHours(hour, min, sec, ms)] on a valid date: the new time
    value. *)
Definition setHours (t hour min sec ms : Z) : Z :=
  UTC (MakeDate (Day (LocalTime t)) (MakeTime hour min sec ms)).

(** [date.toDateString()] on a valid date. *)
Definition toDateString (t : Z) : string := DateString (LocalTime t).
End LocalTime.

(** *** A host for the examples

    The date-only ISO form [YYYY-MM-DD], which every engine reads as
    midnight UTC of that day; local time is UTC; an [ObjectId] is written
    as 24 hexadecimal digits. *)

Definition isDigit (c : ascii) : bool :=
  let n := Z.of_N (N_of_ascii c) in (48 <=? n) && (n <=? 57).

Definition decimal (s : string) : option Z :=
  if forallb isDigit (list_ascii_of_string s) && negb (s =? "")%string
  then parseDigits 10 s None else None.

Definition InLeapYear (y : Z) : bool :=
  ((y mod 4 =? 0) && negb (y mod 100 =? 0)) || (y mod 400 =? 0).

Definition DaysInMonth (y m : Z) : Z :=
  if m =? 2 then (if InLeapYear y then 29 else 28)
  else if (m =? 4) || (m =? 6) || (m =? 9) || (m =? 11) then 30 else 31.

Definition parseISODate (s : string) : option Z :=
  if (String.length s =? 10)%nat
     && (substring 4 1 s =? "-")%string && (substring 7 1 s =? "-")%string
  then
    match decimal (substring 0 4 s), decimal (substring 5 2 s),
          decimal (substring 8 2 s) with
    | Some y, Some m, Some d =>
        if (1 <=? m) && (m <=? 12) && (1 <=? d) && (d <=? DaysInMonth y m)
        then Some (days_from_civil y m d * msPerDay)
        else None
    | _, _, _ => None
    end
  else None.

Definition isHexDigit (c : ascii) : bool :=
  match digitValue c with
  | Some d => d <? 16
  | None => false
  end.

Definition toLowerCase (c : ascii) : ascii :=
  let n := N_of_ascii c in
  if ((65 <=? n) && (n <=? 90))%N then ascii_of_N (n + 32) else c.

Definition castHex24 (s : string) : option string :=
  if (String.length s =? 24)%nat && forallb isHexDigit (list_ascii_of_string s)
  then Some (string_of_list_ascii (map toLowerCase (list_ascii_of_string s)))
  else None.

Definition utcHost : Runtime :=
  {| Date_parse := parseISODate; LocalTZA := 0; castObjectId := castHex24 |}.

End JS.

(** ** JSON values and HTTP responses *)

#[warnings="-register-all"]
Inductive json : Type :=
| JNum (n : Z)
| JStr (s : string)
| JArr (items : list json)
| JObj (members : list (string * json)).

(** [res.status(code).json(body)]; [res.json(body)] answers with 200.
    Where a message of the source quotes a word, the quotation marks are
    written as apostrophes here. *)
Record Response : Type := { status : Z; body : json }.

Definition error (code : Z) (message : string) : Response :=
  {| status := code; body := JObj [("error", JStr message)] |}.

Definition ok (members : list (string * json)) : Response :=
  {| status := 200; body := JObj members |}.

(** The member of an object under a key, and the keys in order. *)
Definition member (key : string) (j : json) : option json :=
  match j with
  | JObj members =>
      option_map snd (find (fun kv => (fst kv =? key)%string) members)
  | _ => None
  end.

Definition keys (j : json) : list string :=
  match j with
  | JObj members => map fst members
  | _ => []
  end.

(** ** The Mongoose models

    A collection is the list of its documents in insertion order, which
    is the order in which an unsorted [find] yields them. *)

Inductive MongooseError : Type :=
| CastError (path : string)
| ValidationError (path : string)
| MongoServerError (code : Z).

Module User.

Record doc : Type := { _id : string; username : string }.

Definition findOne (coll : list doc) (name : string) : option doc :=
  find (fun u => (username u =? name)%string) coll.

Definition findById (rt : JS.Runtime) (coll : list doc) (id : string)
  : MongooseError + option doc :=
  match JS.castObjectId rt id with
  | None => inl (CastError "_id")
  | Some oid => inr (find (fun u => (_id u =? oid)%string) coll)
  end.

(** [save] of a new document: [username] is required and carries a
    unique index, as [_id] does. *)
Definition save (coll : list doc) (u : doc) : MongooseError + list doc :=
  if (username u =? "")%string then inl (ValidationError "username")
  else if existsb (fun v => (_id v =? _id u)%string
                            || (username v =? username u)%string) coll
  then inl (MongoServerError 11000)
  else inr (coll ++ [u])%list.

End User.

Module Exercise.

Record doc : Type := {
  _id : string;
  userId : string;
  description : string;
  duration : Z;
  date : Z
}.

(** [{ $gte: ..., $lte: ... }], either bound optional. *)
Record DateFilter : Type := { gte : option Z; lte : option Z }.

(** [{ userId: ..., date: ... }]; [date] is set only when the handler
    found a bound. *)
Record Conditions : Type := {
  cond_userId : string;
  cond_date : option DateFilter
}.

Record Query : Type := {
  conditions : Conditions;
  limit_ : option Z
}.

Definition find (c : Conditions) : Query :=
  {| conditions := c; limit_ := None |}.

Definition limit (q : Query) (n : Z) : Query :=
  {| conditions := conditions q; limit_ := Some n |}.

Definition inRange (f : DateFilter) (d : Z) : bool :=
  match gte f with Some lo => lo <=? d | None => true end
  && match lte f with Some hi => d <=? hi | None => true end.

Definition matches (oid : string) (c : Conditions) (e : doc) : bool :=
  (userId e =? oid)%string
  && match cond_date c with
     | Some f => inRange f (date e)
     | None => true
     end.

(** What [select('description duration date')] leaves of a document:
    the three paths and [_id], which Mongoose keeps unless it is
    excluded; [userId] is gone. *)
Record selected : Type := {
  sel_id : string;
  sel_description : string;
  sel_duration : Z;
  sel_date : Z
}.

Definition select (e : doc) : selected :=
  {| sel_id := _id e; sel_description := description e;
     sel_duration := duration e; sel_date := date e |}.

(** MongoDB reads a limit of 0 as no limit and a negative one as its
    absolute value. *)
Definition applyLimit {A} (l : option Z) (docs : list A) : list A :=
  match l with
  | None => docs
  | Some n => if n =? 0 then docs else firstn (Z.abs_nat n) docs
  end.

(** [query.select('description duration date').exec()]: the matching
    documents in collection order, cut to the limit. *)
Definition exec (rt : JS.Runtime) (coll : list doc) (q : Query)
  : MongooseError + list selected :=
  match JS.castObjectId rt (cond_userId (conditions q)) with
  | None => inl (CastError "userId")
  | Some oid =>
      inr (map select
             (applyLimit (limit_ q) (filter (matches oid (conditions q)) coll)))
  end.

(** [save] of a new document; every path of the schema is required. *)
Definition save (coll : list doc) (e : doc) : MongooseError + list doc :=
  if (description e =? "")%string then inl (ValidationError "description")
  else if existsb (fun x => (_id x =? _id e)%string) coll
  then inl (MongoServerError 11000)
  else inr (coll ++ [e])%list.

End Exercise.

(** The database: the two collections. *)
Record Db : Type := {
  users : list User.doc;
  exercises : list Exercise.doc
}.

(** ** Asynchronous handler bodies

    The body of a [try] block runs against the database and either goes
    on with a value, has answered the request ([return res...json(...)]),
    or has thrown.  Writes made before a throw stay. *)

Inductive step (A : Type) : Type :=
| Next (a : A) (db : Db)
| Sent (r : Response) (db : Db)
| Thrown (e : MongooseError) (db : Db).

Arguments Next {A} a db.
Arguments Sent {A} r db.
Arguments Thrown {A} e db.

Definition Async (A : Type) : Type := Db -> step A.

Definition ret {A} (a : A) : Async A := fun db => Next a db.

Definition send {A} (r : Response) : Async A := fun db => Sent r db.

Definition bind {A B} (m : Async A) (k : A -> Async B) : Async B :=
  fun db =>
    match m db with
    | Next a db' => k a db'
    | Sent r db' => Sent r db'
    | Thrown e db' => Thrown e db'
    end.

Notation "x <- m ;; k" := (bind m (fun x => k))
  (at level 61, m at next level, right associativity).

(** [await] of a read and of a write on a collection. *)
Definition awaitRead {A} (op : Db -> MongooseError + A) : Async A :=
  fun db =>
    match op db with
    | inr a => Next a db
    | inl e => Thrown e db
    end.

Definition awaitWrite (op : Db -> MongooseError + Db) : Async unit :=
  fun db =>
    match op db with
    | inr db' => Next tt db'
    | inl e => Thrown e db
    end.

(** [try { body } catch (err) { handler }], the body ending in the
    response it sends. *)
Definition tryCatch (body : Async Response) (handler : MongooseError -> Response)
  : Db -> Response * Db :=
  fun db =>
    match body db with
    | Next r db' => (r, db')
    | Sent r db' => (r, db')
    | Thrown e db' => (handler e, db')
    end.

Definition saveUser (u : User.doc) : Db -> MongooseError + Db :=
  fun db =>
    match User.save (users db) u with
    | inr coll => inr {| users := coll; exercises := exercises db |}
    | inl e => inl e
    end.

Definition saveExercise (e : Exercise.doc) : Db -> MongooseError + Db :=
  fun db =>
    match Exercise.save (exercises db) e with
    | inr coll => inr {| users := users db; exercises := coll |}
    | inl e => inl e
    end.

(** [err.name === 'CastError' && err.path === '_id'] *)
Definition isCastErrorOnId (err : MongooseError) : bool :=
  match err with
  | CastError path => (path =? "_id")%string
  | _ => false
  end.

(** [err.code === 11000] *)
Definition isDuplicateKey (err : MongooseError) : bool :=
  match err with
  | MongoServerError code => code =? 11000
  | _ => false
  end.

(** ** The handlers of [src/server.js] *)

Module Server.

Section Handlers.
Variable rt : JS.Runtime.

(** [POST /api/users].  [oid] is the identifier [new User(...)] gives
    the document. *)
Definition createUser (username : option string) (oid : string)
  : Db -> Response * Db :=
  if negb (JS.truthy username) then
    fun db => (error 400 "Username is required", db)
  else
    let username := JS.ToString username in
    tryCatch
      (user <- awaitRead (fun db => inr (User.findOne (users db) username)) ;;
       match user with
       | Some user =>
           send (ok [("username", JStr (User.username user));
                     ("_id", JStr (User._id user))])
       | None =>
           let user := {| User._id := oid; User.username := username |} in
           _ <- awaitWrite (saveUser user) ;;
           ret (ok [("username", JStr (User.username user));
                    ("_id", JStr (User._id user))])
       end)
      (fun err =>
         if isDuplicateKey err then error 400 "Username already taken"
         else error 500 "Server error while creating user").

(** [GET /api/users] *)
Definition listUsers : Db -> Response * Db :=
  tryCatch
    (found <- awaitRead (fun db => inr (users db)) ;;
     ret {| status := 200;
            body := JArr (map (fun u => JObj [("_id", JStr (User._id u));
                                             ("username", JStr (User.username u))])
                              found) |})
    (fun _ => error 500 "Server error while fetching users").

(** [POST /api/users/:_id/exercises].  [now] is the clock reading that
    [new Date()] takes, [oid] the identifier of the new document. *)
Definition addExercise (userId : string)
    (description duration date : option string) (now : Z) (oid : string)
  : Db -> Response * Db :=
  if negb (JS.truthy description) || negb (JS.truthy duration) then
    fun db => (error 400 "Description and duration are required.", db)
  else
    match JS.parseInt (JS.ToString duration) with
    | None => fun db => (error 400 "Duration must be a number.", db)
    | Some durationNum =>
        let dateObj :=
          if JS.truthy date
             && negb (JS.trim (JS.ToString date) =? "")%string
          then
            match JS.Date_parse rt (JS.ToString date) with
            | Some t => t
            | None => now
            end
          else now in
        tryCatch
          (user <- awaitRead (fun db => User.findById rt (users db) userId) ;;
           match user with
           | None => send (error 404 "User not found")
           | Some user =>
               let newExercise :=
                 {| Exercise._id := oid;
                    Exercise.userId := User._id user;
                    Exercise.description := JS.ToString description;
                    Exercise.duration := durationNum;
                    Exercise.date := dateObj |} in
               _ <- awaitWrite (saveExercise newExercise) ;;
               ret (ok [("_id", JStr (User._id user));
                        ("username", JStr (User.username user));
                        ("description", JStr (Exercise.description newExercise));
                        ("duration", JNum (Exercise.duration newExercise));
                        ("date", JStr (JS.toDateString rt (Exercise.date newExercise)))])
           end)
          (fun err =>
             if isCastErrorOnId err then error 400 "Invalid user ID format"
             else error 500 "Server error while adding exercise")
    end.

(** One entry of the log that [GET /api/users/:_id/logs] answers. *)
Definition logEntry (ex : Exercise.selected) : json :=
  JObj [("description", JStr (Exercise.sel_description ex));
        ("duration", JNum (Exercise.sel_duration ex));
        ("date", JStr (JS.toDateString rt (Exercise.sel_date ex)))].

(** [GET /api/users/:_id/logs] *)
Definition getLog (userId : string) (from to limit : option string)
  : Db -> Response * Db :=
  tryCatch
    (user <- awaitRead (fun db => User.findById rt (users db) userId) ;;
     match user with
     | None => send (error 404 "User not found")
     | Some user =>
         gte <- (if JS.truthy from then
                   match JS.Date_parse rt (JS.ToString from) with
                   | Some fromDate => ret (Some fromDate)
                   | None =>
                       send (error 400 "Invalid 'from' date format. Use yyyy-mm-dd.")
                   end
                 else ret None) ;;
         lte <- (if JS.truthy to then
                   match JS.Date_parse rt (JS.ToString to) with
                   | Some toDate =>
                       ret (Some (JS.setHours rt toDate 23 59 59 999))
                   | None =>
                       send (error 400 "Invalid 'to' date format. Use yyyy-mm-dd.")
                   end
                 else ret None) ;;
         let dateFilter := {| Exercise.gte := gte; Exercise.lte := lte |} in
         let queryConditions :=
           {| Exercise.cond_userId := userId;
              Exercise.cond_date :=
                match gte, lte with
                | None, None => None
                | _, _ => Some dateFilter
                end |} in
         let exerciseQuery := Exercise.find queryConditions in
         exerciseQuery <-
           (if JS.truthy limit then
              match JS.parseInt (JS.ToString limit) with
              | Some limitNum =>
                  if 0 <? limitNum
                  then ret (Exercise.limit exerciseQuery limitNum)
                  else send (error 400 "Invalid 'limit' value. Must be a positive integer.")
              | None => ret exerciseQuery
              end
            else ret exerciseQuery) ;;
         found <- awaitRead (fun db => Exercise.exec rt (exercises db) exerciseQuery) ;;
         let log := map logEntry found in
         ret (ok [("_id", JStr (User._id user));
                  ("username", JStr (User.username user));
                  ("count", JNum (Z.of_nat (List.length log)));
                  ("log", JArr log)])
     end)
    (fun err =>
       if isCastErrorOnId err then error 400 "Invalid user ID format"
       else error 500 "Server error while fetching logs").

End Handlers.

End Server.

(** ** The second application of [src/unnamed/part_000]

    The file holds two more copies of the application.  The second one
    (from its line 76 on) has the same schemas as [src/server.js]; its
    exercise handler orders and words its checks differently.  Its
    messages are written without their accents here. *)

Module App2.

Section Handlers.
Variable rt : JS.Runtime.

(** [POST /api/users/:_id/exercises]; the whole body is in the [try]. *)
Definition addExercise (userId : string)
    (description duration date : option string) (now : Z) (oid : string)
  : Db -> Response * Db :=
  tryCatch
    (if negb (JS.truthy description) || negb (JS.truthy duration) then
       send (error 400 "Descripcion y duracion son requeridas.")
     else
       user <- awaitRead (fun db => User.findById rt (users db) userId) ;;
       match user with
       | None => send (error 404 "Usuario no encontrado con ese ID")
       | Some user =>
           exerciseDate <-
             (if JS.truthy date then
                match JS.Date_parse rt (JS.ToString date) with
                | Some t => ret t
                | None => send (error 400 "Formato de fecha invalido")
                end
              else ret now) ;;
           parsedDuration <-
             (match JS.parseInt (JS.ToString duration) with
              | Some n =>
                  if n <=? 0
                  then send (error 400 "La duracion debe ser un numero positivo.")
                  else ret n
              | None => send (error 400 "La duracion debe ser un numero positivo.")
              end) ;;
           let newExercise :=
             {| Exercise._id := oid;
                Exercise.userId := User._id user;
                Exercise.description := JS.ToString description;
                Exercise.duration := parsedDuration;
                Exercise.date := exerciseDate |} in
           _ <- awaitWrite (saveExercise newExercise) ;;
           ret (ok [("_id", JStr (User._id user));
                    ("username", JStr (User.username user));
                    ("date", JStr (JS.toDateString rt (Exercise.date newExercise)));
                    ("duration", JNum (Exercise.duration newExercise));
                    ("description", JStr (Exercise.description newExercise))])
       end)
    (fun err =>
       if isCastErrorOnId err then error 400 "ID de usuario invalido"
       else error 500 "Error al guardar el ejercicio").

(** [POST /api/users]; the same steps as in [src/server.js]. *)
Definition createUser (username : option string) (oid : string)
  : Db -> Response * Db :=
  tryCatch
    (if negb (JS.truthy username) then
       send (error 400 "El nombre de usuario es requerido")
     else
       let username := JS.ToString username in
       existingUser <- awaitRead (fun db => inr (User.findOne (users db) username)) ;;
       match existingUser with
       | Some existingUser =>
           send (ok [("username", JStr (User.username existingUser));
                     ("_id", JStr (User._id existingUser))])
       | None =>
           let newUser := {| User._id := oid; User.username := username |} in
           _ <- awaitWrite (saveUser newUser) ;;
           ret (ok [("username", JStr (User.username newUser));
                    ("_id", JStr (User._id newUser))])
       end)
    (fun err =>
       if isDuplicateKey err then error 400 "El nombre de usuario ya existe."
       else error 500 "Fallo la creacion del usuario").

(** [GET /api/users] *)
Definition listUsers : Db -> Response * Db :=
  tryCatch
    (found <- awaitRead (fun db => inr (users db)) ;;
     ret {| status := 200;
            body := JArr (map (fun u => JObj [("_id", JStr (User._id u));
                                             ("username", JStr (User.username u))])
                              found) |})
    (fun _ => error 500 "Error al obtener la lista de usuarios").

(** [GET /api/users/:_id/logs].  When one of the two bounds is given,
    the handler calls [.gte] and [.lte] with both members of the filter,
    the missing one being [undefined].  What Mongoose makes of a
    comparison with [undefined] is not in the sources: [undefinedBound]
    stands for it, a rejection of the query or the truth value the
    comparison has for every document. *)
Variable undefinedBound : MongooseError + bool.

Definition compareBound (bound : option Z) (holds : Z -> bool) : MongooseError + bool :=
  match bound with
  | Some b => inr (holds b)
  | None => undefinedBound
  end.

(** [query.where('date').gte(lo).lte(hi)] on one document. *)
Definition dateMatches (range : option (option Z * option Z)) (e : Exercise.doc)
  : MongooseError + bool :=
  match range with
  | None => inr true
  | Some (lo, hi) =>
      match compareBound lo (fun b => b <=? Exercise.date e),
            compareBound hi (fun b => Exercise.date e <=? b) with
      | inr x, inr y => inr (x && y)
      | inl err, _ => inl err
      | _, inl err => inl err
      end
  end.

Fixpoint findWhere (oid : string) (range : option (option Z * option Z))
    (coll : list Exercise.doc) : MongooseError + list Exercise.doc :=
  match coll with
  | [] => inr []
  | e :: coll' =>
      match dateMatches range e, findWhere oid range coll' with
      | inr keep, inr rest =>
          inr (if (Exercise.userId e =? oid)%string && keep then e :: rest else rest)
      | inl err, _ => inl err
      | _, inl err => inl err
      end
  end.

Definition getLog (userId : string) (from to limit : option string)
  : Db -> Response * Db :=
  tryCatch
    (user <- awaitRead (fun db => User.findById rt (users db) userId) ;;
     match user with
     | None => send (error 404 "Usuario no encontrado con ese ID")
     | Some user =>
         gte <- (if JS.truthy from then
                   match JS.Date_parse rt (JS.ToString from) with
                   | Some fromDate => ret (Some fromDate)
                   | None => send (error 400 "Formato de fecha 'from' invalido (YYYY-MM-DD)")
                   end
                 else ret None) ;;
         lte <- (if JS.truthy to then
                   match JS.Date_parse rt (JS.ToString to) with
                   | Some toDate => ret (Some toDate)
                   | None => send (error 400 "Formato de fecha 'to' invalido (YYYY-MM-DD)")
                   end
                 else ret None) ;;
         let range :=
           match gte, lte with
           | None, None => None
           | _, _ => Some (gte, lte)
           end in
         let limit_ :=
           match JS.parseInt (JS.ToString limit) with
           | Some parsedLimit => if 0 <? parsedLimit then Some parsedLimit else None
           | None => None
           end in
         found <- awaitRead (fun db =>
                    match findWhere (User._id user) range (exercises db) with
                    | inr docs => inr (Exercise.applyLimit limit_ docs)
                    | inl err => inl err
                    end) ;;
         let log :=
           map (fun e => JObj [("description", JStr (Exercise.description e));
                               ("duration", JNum (Exercise.duration e));
                               ("date", JStr (JS.toDateString rt (Exercise.date e)))])
               found in
         ret (ok [("_id", JStr (User._id user));
                  ("username", JStr (User.username user));
                  ("count", JNum (Z.of_nat (List.length log)));
                  ("log", JArr log)])
     end)
    (fun err =>
       if isCastErrorOnId err then error 400 "ID de usuario invalido"
       else error 500 "Error al obtener los logs del ejercicio").

End Handlers.

End App2.

(** ** The router of [src/unnamed/part_000]

    The first copy (up to line 74) keeps the log inside the user
    document.  Its model file is not among the sources; a user document
    is taken to carry what the handlers read from it.  Nothing is caught:
    when the user is not found the handler throws on [user.log] and no
    response is sent, which is [None] here. *)

Module Router.

Record entry : Type := { description : string; duration : Z; date : Z }.

Record doc : Type := { _id : string; username : string; log : list entry }.

(** [array.slice(0, end)], [None] being [NaN]. *)
Definition slice0 {A} (l : list A) (end_ : option Z) : list A :=
  let len := Z.of_nat (List.length l) in
  let relativeEnd := match end_ with Some n => n | None => 0 end in
  let final :=
    if relativeEnd <? 0 then Z.max (len + relativeEnd) 0
    else Z.min relativeEnd len in
  firstn (Z.to_nat final) l.

Section Handlers.
Variable rt : JS.Runtime.

Definition findById (coll : list doc) (id : string) : option doc :=
  match JS.castObjectId rt id with
  | None => None
  | Some oid => find (fun u => (_id u =? oid)%string) coll
  end.

(** The log as [GET /:id/logs] filters and cuts it.  A comparison with
    an invalid date is false. *)
Definition queryLog (log : list entry) (from to limit : option string)
  : list entry :=
  let log :=
    if JS.truthy from then
      filter (fun ex =>
                match JS.Date_parse rt (JS.ToString from) with
                | Some fromDate => fromDate <=? date ex
                | None => false
                end) log
    else log in
  let log :=
    if JS.truthy to then
      filter (fun ex =>
                match JS.Date_parse rt (JS.ToString to) with
                | Some toDate => date ex <=? toDate
                | None => false
                end) log
    else log in
  if JS.truthy limit
  then slice0 log (JS.parseInt (JS.ToString limit))
  else log.

Definition getLog (coll : list doc) (id : string) (from to limit : option string)
  : option Response :=
  match findById coll id with
  | None => None
  | Some user =>
      let log := queryLog (log user) from to limit in
      Some (ok [("username", JStr (username user));
                ("count", JNum (Z.of_nat (List.length log)));
                ("_id", JStr (_id user));
                ("log", JArr (map (fun e =>
                                     JObj [("description", JStr (description e));
                                           ("duration", JNum (duration e));
                                           ("date", JStr (JS.toDateString rt (date e)))])
                                  log))])
  end.

End Handlers.

End Router.

(** ** How the log endpoint reads its query string *)

Section Query.
Variable rt : JS.Runtime.

(** A date bound of the query string: [Some None] when it is absent or
    empty, [Some (Some t)] when it parses to the time value [t], [None]
    when it is present and does not parse. *)
Definition dateBound (v : option string) : option (option Z) :=
  if JS.truthy v then
    match JS.Date_parse rt (JS.ToString v) with
    | Some t => Some (Some t)
    | None => None
    end
  else Some None.

(** The limit of the query string: [Some None] when no limit applies
    (absent, empty, or without a leading integer), [Some (Some n)] for
    a positive [n], [None] when it is refused. *)
Definition limitBound (v : option string) : option (option Z) :=
  if JS.truthy v then
    match JS.parseInt (JS.ToString v) with
    | Some n => if 0 <? n then Some (Some n) else None
    | None => Some None
    end
  else Some None.

(** The date an exercise is stored with: the one submitted when it is
    given, not blank and parses, the clock reading otherwise. *)
Definition dateOrNow (date : option string) (now : Z) : Z :=
  match date with
  | Some s =>
      if (s =? "")%string || (JS.trim s =? "")%string then now
      else match JS.Date_parse rt s with
           | Some t => t
           | None => now
           end
  | None => now
  end.

(** The document [addExercise] creates and the answer it gives. *)
Definition newExercise (user : User.doc) (description : string)
    (duration t : Z) (oid : string) : Exercise.doc :=
  {| Exercise._id := oid;
     Exercise.userId := User._id user;
     Exercise.description := description;
     Exercise.duration := duration;
     Exercise.date := t |}.

Definition exerciseResponse (user : User.doc) (e : Exercise.doc) : Response :=
  ok [("_id", JStr (User._id user));
      ("username", JStr (User.username user));
      ("description", JStr (Exercise.description e));
      ("duration", JNum (Exercise.duration e));
      ("date", JStr (JS.toDateString rt (Exercise.date e)))].

(** The calendar day, in the zone of the host, on which a time value
    falls. *)
Definition dayOf (t : Z) : Z := JS.Day (JS.LocalTime rt t).

(** The date window in the words of the specification: on or after the
    instant [from], and no later than the end of the calendar day of
    [to]. *)
Definition inWindow (from to : option Z) (d : Z) : bool :=
  match from with Some f => f <=? d | None => true end
  && match to with Some t => dayOf d <=? dayOf t | None => true end.

(** The exercises of a user that fall in the window, in the order of
    the collection. *)
Definition windowOf (oid : string) (from to : option Z) (db : Db)
  : list Exercise.doc :=
  filter (fun e => (Exercise.userId e =? oid)%string
                   && inWindow from to (Exercise.date e))
         (exercises db).

(** The entry the log shows for an exercise. *)
Definition entryOf (e : Exercise.doc) : json :=
  JObj [("description", JStr (Exercise.description e));
        ("duration", JNum (Exercise.duration e));
        ("date", JStr (JS.toDateString rt (Exercise.date e)))].

(** The answer of the log endpoint for a user and a list of entries. *)
Definition logResponse (user : User.doc) (log : list json) : Response :=
  ok [("_id", JStr (User._id user));
      ("username", JStr (User.username user));
      ("count", JNum (Z.of_nat (List.length log)));
      ("log", JArr log)].
End Query.


(** ** The calendar form of a date

    The form in the words of the specification: a weekday, a month, a
    day and a year, separated by single spaces; the names have three
    letters, the day two digits, the year four digits or more, after a
    minus sign for a year before the year 0. *)

Fixpoint allDigits (s : string) : bool :=
  match s with
  | EmptyString => true
  | String c s' => JS.isDigit c && allDigits s'
  end.

Definition isCalendarString (s : string) : Prop :=
  exists w m dd sign yyyy,
    s = w ++ " " ++ m ++ " " ++ dd ++ " " ++ sign ++ yyyy
    /\ In w JS.weekdayNames /\ In m JS.monthNames
    /\ String.length dd = 2%nat /\ allDigits dd = true
    /\ (sign = "" \/ sign = "-")
    /\ (4 <= String.length yyyy)%nat /\ allDigits yyyy = true.

(** ** A sample database

    Two users; the first has five exercises around 10 January 2023 (the
    evening before, midnight, noon, the last millisecond of the day, and
    the next midnight, all UTC), the second has one. *)

Module Sample.

Definition alice : User.doc :=
  {| User._id := "507f1f77bcf86cd799439011"; User.username := "alice" |}.

Definition bob : User.doc :=
  {| User._id := "507f1f77bcf86cd799439012"; User.username := "bob" |}.

Definition exercise (n : string) (u : User.doc) (what : string) (mins t : Z)
  : Exercise.doc :=
  {| Exercise._id := "65a0000000000000000000" ++ n;
     Exercise.userId := User._id u;
     Exercise.description := what;
     Exercise.duration := mins;
     Exercise.date := t |}.

Definition db : Db :=
  {| users := [alice; bob];
     exercises :=
       [exercise "01" alice "walk" 20 1673305200000;
        exercise "02" alice "run" 30 1673308800000;
        exercise "03" bob "swim" 45 1673308800000;
        exercise "04" alice "row" 15 1673352000000;
        exercise "05" alice "lift" 40 1673395199999;
        exercise "06" alice "yoga" 60 1673395200000] |}.

(** A host five hours west of UTC. *)
Definition westHost : JS.Runtime :=
  {| JS.Date_parse := JS.parseISODate;
     JS.LocalTZA := -18000000;
     JS.castObjectId := JS.castHex24 |}.

End Sample.

(** ** The application as a whole

    The four routes of [src/server.js] as one step function on the
    database, and a run of requests from left to right. *)

Inductive request : Type :=
| CreateUser (username : option string) (oid : string)
| ListUsers
| AddExercise (userId : string) (description duration date : option string)
              (now : Z) (oid : string)
| GetLog (userId : string) (from to limit : option string).

Definition handle (rt : JS.Runtime) (r : request) : Db -> Response * Db :=
  match r with
  | CreateUser username oid => Server.createUser username oid
  | ListUsers => Server.listUsers
  | AddExercise userId description duration date now oid =>
      Server.addExercise rt userId description duration date now oid
  | GetLog userId from to limit => Server.getLog rt userId from to limit
  end.

Fixpoint run (rt : JS.Runtime) (rs : list request) (db : Db) : list Response * Db :=
  match rs with
  | [] => ([], db)
  | r :: rs' =>
      let '(answer, db') := handle rt r db in
      let '(answers, db'') := run rt rs' db' in
      (answer :: answers, db'')
  end.

Definition emptyDb : Db := {| users := []; exercises := [] |}.

(** What the collections are expected to satisfy: names and identifiers
    of users are not repeated, identifiers of exercises are not repeated,
    every exercise refers to a user of the collection, and no user name
    and no description is empty. *)
Record consistent (db : Db) : Prop := {
  names_unique : NoDup (map User.username (users db));
  user_ids_unique : NoDup (map User._id (users db));
  exercise_ids_unique : NoDup (map Exercise._id (exercises db));
  exercises_refer :
    forall e, In e (exercises db) ->
              exists u, In u (users db) /\ User._id u = Exercise.userId e;
  names_given : forall u, In u (users db) -> User.username u <> "";
  descriptions_given : forall e, In e (exercises db) -> Exercise.description e <> ""
}.

(** One list continues another. *)
Definition extends {A} (l' l : list A) : Prop := exists more, l' = (l ++ more)%list.

(** A request field as the handlers see it: an empty string counts as
    no field. *)
Definition given (v : option string) : option string :=
  if JS.truthy v then v else None.

(** [l] is [l'] with some elements left out, the order kept. *)
Inductive subsequence {A : Type} : list A -> list A -> Prop :=
| sub_nil : subsequence [] []
| sub_skip (x : A) (l l' : list A) : subsequence l l' -> subsequence l (x :: l')
| sub_keep (x : A) (l l' : list A) : subsequence l l' -> subsequence (x :: l) (x :: l').

(** ** Creating a user through the router

    [router.post('/')] (lines 6 to 10 of [src/unnamed/part_000]) builds a
    user from the name in the body and saves it: no lookup comes first
    and nothing is caught.  The schema of [/models/User] is not among the
    sources; whether it puts a unique index on [username] is the
    parameter [uniqueUsername].  An identifier is unique in every
    collection.  A save that is rejected makes the handler throw, and no
    response is sent: [None]. *)

Module RouterPost.

Section Handlers.
Variable uniqueUsername : bool.

Definition save (coll : list Router.doc) (u : Router.doc)
  : MongooseError + list Router.doc :=
  if existsb (fun v => (Router._id v =? Router._id u)%string) coll
     || (uniqueUsername
         && existsb (fun v => (Router.username v =? Router.username u)%string) coll)
  then inl (MongoServerError 11000)
  else inr (coll ++ [u])%list.

Definition createUser (username : string) (oid : string) (coll : list Router.doc)
  : option Response * list Router.doc :=
  let newUser :=
    {| Router._id := oid; Router.username := username; Router.log := [] |} in
  match save coll newUser with
  | inl _ => (None, coll)
  | inr coll' =>
      (Some (ok [("username", JStr (Router.username newUser));
                 ("_id", JStr (Router._id newUser))]),
       coll')
  end.

End Handlers.

(** The user documents of [Sample.db] as the router keeps them. *)
Definition sample : list Router.doc :=
  [{| Router._id := "507f1f77bcf86cd799439011"; Router.username := "alice";
      Router.log := [] |};
   {| Router._id := "507f1f77bcf86cd799439012"; Router.username := "bob";
      Router.log := [] |}].

End RouterPost.

(** ** A date of any type in the body of [addExercise]

    [date && date.trim() !== ''] (line 96 of [src/server.js]) comes after
    the checks of the description and the duration and before the [try]
    of line 116.  A value that is not a string has no [trim]: when it is
    truthy the handler throws there and sends nothing; when it is falsy
    the conjunction stops at it and the clock is read, as for an absent
    date. *)

Inductive bodyField : Type :=
| Absent
| Text (s : string)
| NotText (truthy : bool).

Inductive outcome : Type :=
| Answered (r : Response)
| Threw.

Definition addExerciseBody (rt : JS.Runtime) (userId : string)
    (description duration : option string) (date : bodyField) (now : Z)
    (oid : string) (db : Db) : outcome * Db :=
  if negb (JS.truthy description) || negb (JS.truthy duration) then
    (Answered (error 400 "Description and duration are required."), db)
  else
    match JS.parseInt (JS.ToString duration) with
    | None => (Answered (error 400 "Duration must be a number."), db)
    | Some _ =>
        match date with
        | NotText true => (Threw, db)
        | NotText false | Absent =>
            let '(answer, db') :=
              Server.addExercise rt userId description duration None now oid db in
            (Answered answer, db')
        | Text s =>
            let '(answer, db') :=
              Server.addExercise rt userId description duration (Some s) now oid db in
            (Answered answer, db')
        end
    end.

(** ** Years of more than four digits

    The expanded form of the standard, a sign and six digits for the
    year: [+YYYYYY-MM-DD] and [-YYYYYY-MM-DD], midnight UTC of that day;
    the year [-000000] is not a year. *)

Definition parseExpandedDate (s : string) : option Z :=
  if (String.length s =? 13)%nat
     && (substring 7 1 s =? "-")%string && (substring 10 1 s =? "-")%string
  then
    match JS.decimal (substring 1 6 s), JS.decimal (substring 8 2 s),
          JS.decimal (substring 11 2 s) with
    | Some y, Some m, Some d =>
        let year :=
          if (substring 0 1 s =? "+")%string then Some y
          else if (substring 0 1 s =? "-")%string && negb (y =? 0) then Some (- y)
          else None in
        match year with
        | Some y =>
            if (1 <=? m) && (m <=? 12) && (1 <=? d) && (d <=? JS.DaysInMonth y m)
            then Some (JS.days_from_civil y m d * JS.msPerDay)
            else None
        | None => None
        end
    | _, _, _ => None
    end
  else None.

(** The host of the examples, reading the expanded form as well. *)
Definition expandedYearHost : JS.Runtime :=
  {| JS.Date_parse :=
       fun s => match JS.parseISODate s with
                | Some t => Some t
                | None => parseExpandedDate s
                end;
     JS.LocalTZA := 0;
     JS.castObjectId := JS.castHex24 |}.
(** ** Properties *)

(** *** The built-ins on examples *)

Example parseInt_30 : JS.parseInt "30" = Some 30. Proof. reflexivity. Qed.
Example parseInt_m1 : JS.parseInt "-1" = Some (-1). Proof. reflexivity. Qed.
Example parseInt_abc : JS.parseInt "abc" = None. Proof. reflexivity. Qed.
Example parseInt_hex : JS.parseInt " 0x1f" = Some 31. Proof. reflexivity. Qed.
Example parseInt_frac : JS.parseInt "1.5" = Some 1. Proof. reflexivity. Qed.
Example trim_ex : JS.trim "  a b  " = "a b". Proof. reflexivity. Qed.
Example parse_20200202 : JS.parseISODate "2020-02-02" = Some 1580601600000.
Proof. vm_compute. reflexivity. Qed.
Example parse_20230110 : JS.parseISODate "2023-01-10" = Some 1673308800000.
Proof. vm_compute. reflexivity. Qed.
Example render_20200202 :
  JS.toDateString JS.utcHost 1580601600000 = "Sun Feb 02 2020".
Proof. vm_compute. reflexivity. Qed.
Example render_epoch : JS.toDateString JS.utcHost 0 = "Thu Jan 01 1970".
Proof. vm_compute. reflexivity. Qed.
Example render_1990 : JS.toDateString JS.utcHost 631152000000 = "Mon Jan 01 1990".
Proof. vm_compute. reflexivity. Qed.
Example render_west :
  JS.toDateString {| JS.Date_parse := JS.parseISODate; JS.LocalTZA := -18000000;
                     JS.castObjectId := JS.castHex24 |} 1580601600000
  = "Sat Feb 01 2020".
Proof. vm_compute. reflexivity. Qed.

(** *** Auxiliary facts *)

Lemma truthy_ToString (v : option string) :
  JS.truthy v = true -> v = Some (JS.ToString v) /\ JS.ToString v <> "".
Proof.
  destruct v as [s|]; simpl; [|discriminate].
  destruct (String.eqb_spec s ""); simpl; [discriminate|].
  intros _. split; [reflexivity|assumption].
Qed.

Lemma parseInt_truthy (v : option string) (n : Z) :
  JS.parseInt (JS.ToString v) = Some n -> JS.truthy v = true.
Proof.
  destruct v as [[|c s]|]; simpl; try reflexivity; discriminate.
Qed.

Lemma findById_cast rt coll id user :
  User.findById rt coll id = inr (Some user) ->
  JS.castObjectId rt id = Some (User._id user) /\ In user coll.
Proof.
  unfold User.findById. destruct (JS.castObjectId rt id) as [oid|]; [|discriminate].
  intros H. injection H as H. apply find_some in H. destruct H as [Hin Heq].
  apply String.eqb_eq in Heq. subst oid. split; [reflexivity|assumption].
Qed.

(** The last millisecond of the local day of [t] is at or after [d]
    exactly when [d] falls on that day or an earlier one. *)
Lemma setHours_end_of_day rt (t d : Z) :
  (d <=? JS.setHours rt t 23 59 59 999) = (dayOf rt d <=? dayOf rt t).
Proof.
  unfold JS.setHours, dayOf, JS.UTC, JS.MakeDate, JS.MakeTime, JS.LocalTime,
    JS.Day, JS.msPerDay.
  set (z := JS.LocalTZA rt).
  pose proof (Z.div_mod (d + z) 86400000 ltac:(lia)) as Hd.
  pose proof (Z.mod_pos_bound (d + z) 86400000 ltac:(lia)) as Hr.
  destruct (Z.leb_spec ((d + z) / 86400000) ((t + z) / 86400000));
    [apply Z.leb_le | apply Z.leb_gt]; lia.
Qed.

Lemma setHours_not_before rt (t : Z) : t <= JS.setHours rt t 23 59 59 999.
Proof.
  apply Z.leb_le. rewrite setHours_end_of_day. apply Z.leb_refl.
Qed.

(** What the query of the log endpoint matches is the window of the
    specification. *)
Lemma matches_window rt (userId oid : string) (gte to : option Z) (e : Exercise.doc) :
  let lte := option_map (fun t => JS.setHours rt t 23 59 59 999) to in
  Exercise.matches oid
    {| Exercise.cond_userId := userId;
       Exercise.cond_date :=
         match gte, lte with
         | None, None => None
         | _, _ => Some {| Exercise.gte := gte; Exercise.lte := lte |}
         end |} e
  = (Exercise.userId e =? oid)%string && inWindow rt gte to (Exercise.date e).
Proof.
  unfold Exercise.matches, inWindow, Exercise.inRange.
  destruct gte as [f|], to as [t|]; simpl;
    rewrite ?setHours_end_of_day, ?andb_true_r; reflexivity.
Qed.

Lemma logEntry_select rt (l : list Exercise.doc) :
  map (Server.logEntry rt) (map Exercise.select l) = map (entryOf rt) l.
Proof. rewrite map_map. reflexivity. Qed.

(** The log endpoint, once the user is found, case by case. *)
Lemma getLog_found rt db userId user from to limit :
  User.findById rt (users db) userId = inr (Some user) ->
  Server.getLog rt userId from to limit db =
  match dateBound rt from with
  | None => (error 400 "Invalid 'from' date format. Use yyyy-mm-dd.", db)
  | Some gte =>
      match dateBound rt to with
      | None => (error 400 "Invalid 'to' date format. Use yyyy-mm-dd.", db)
      | Some lte =>
          match limitBound limit with
          | None => (error 400 "Invalid 'limit' value. Must be a positive integer.", db)
          | Some lim =>
              (logResponse user
                 (map (entryOf rt)
                    (Exercise.applyLimit lim (windowOf rt (User._id user) gte lte db))),
               db)
          end
      end
  end.
Proof.
  intros Hfind. destruct (findById_cast _ _ _ _ Hfind) as [Hcast _].
  unfold Server.getLog, tryCatch, bind, awaitRead, dateBound, limitBound.
  rewrite Hfind.
  assert (Hexec : forall gte to lim,
    Exercise.exec rt (exercises db)
      {| Exercise.conditions :=
           {| Exercise.cond_userId := userId;
              Exercise.cond_date :=
                match gte, option_map (fun t => JS.setHours rt t 23 59 59 999) to with
                | None, None => None
                | _, _ => Some {| Exercise.gte := gte;
                                  Exercise.lte := option_map (fun t => JS.setHours rt t 23 59 59 999) to |}
                end |};
         Exercise.limit_ := lim |}
    = inr (map Exercise.select
             (Exercise.applyLimit lim (windowOf rt (User._id user) gte to db)))).
  { intros gte to' lim. unfold Exercise.exec. simpl. rewrite Hcast.
    unfold windowOf. do 3 f_equal. apply filter_ext. intros e.
    apply (matches_window rt userId (User._id user) gte to' e). }
  destruct (JS.truthy from); [destruct (JS.Date_parse rt (JS.ToString from)) as [f|]|];
    simpl; try reflexivity;
  (destruct (JS.truthy to); [destruct (JS.Date_parse rt (JS.ToString to)) as [t|]|];
    simpl; try reflexivity);
  (destruct (JS.truthy limit);
    [destruct (JS.parseInt (JS.ToString limit)) as [n|]; [destruct (0 <? n)|]|];
    simpl; try reflexivity);
  unfold Exercise.limit, Exercise.find; simpl.
  all: first
    [ rewrite (Hexec (Some f) (Some t)) | rewrite (Hexec (Some f) None)
    | rewrite (Hexec None (Some t)) | rewrite (Hexec None None) ];
    unfold logResponse; rewrite logEntry_select; reflexivity.
Qed.

(** *** The date window of the log (C1) *)

(** The window [src/server.js] applies.  For a user that exists and
    bounds that parse (each one given or not, independently), the log of
    [getLog] without a limit is the user's exercises that fall in the
    window, in collection order: an exercise is in it exactly when its
    date is at or after the instant [from] and falls no later than the
    day, in the local time of the host, of the instant [to].  With [from]
    and [to] both ["2023-01-10"], every exercise at or after that instant
    and on its local day is returned. *)
Lemma getLog_date_window rt db userId user from to gte lte :
  User.findById rt (users db) userId = inr (Some user) ->
  dateBound rt from = Some gte ->
  dateBound rt to = Some lte ->
  Server.getLog rt userId from to None db
  = (logResponse user (map (entryOf rt) (windowOf rt (User._id user) gte lte db)), db)
  /\ (forall e,
        In e (windowOf rt (User._id user) gte lte db) <->
        In e (exercises db) /\ Exercise.userId e = User._id user
        /\ (forall f, gte = Some f -> f <= Exercise.date e)
        /\ (forall t, lte = Some t -> dayOf rt (Exercise.date e) <= dayOf rt t))
  /\ (forall t,
        JS.Date_parse rt "2023-01-10" = Some t ->
        Server.getLog rt userId (Some "2023-01-10") (Some "2023-01-10") None db
        = (logResponse user
             (map (entryOf rt) (windowOf rt (User._id user) (Some t) (Some t) db)), db)
        /\ forall e,
             In e (exercises db) -> Exercise.userId e = User._id user ->
             t <= Exercise.date e -> dayOf rt (Exercise.date e) = dayOf rt t ->
             In e (windowOf rt (User._id user) (Some t) (Some t) db)).
Proof.
  intros Hfind Hfrom Hto. split; [|split].
  - rewrite (getLog_found _ _ _ _ _ _ _ Hfind), Hfrom, Hto. reflexivity.
  - intros e. unfold windowOf, inWindow. rewrite filter_In, !andb_true_iff.
    rewrite String.eqb_eq. split.
    + intros (Hin & Hu & Hf & Ht). repeat split; try assumption.
      * intros f ->. apply Z.leb_le. exact Hf.
      * intros t ->. apply Z.leb_le. exact Ht.
    + intros (Hin & Hu & Hf & Ht). repeat split; try assumption.
      * destruct gte as [f|]; [apply Z.leb_le; auto | reflexivity].
      * destruct lte as [t|]; [apply Z.leb_le; auto | reflexivity].
  - intros t Hparse. split.
    + rewrite (getLog_found _ _ _ _ _ _ _ Hfind). unfold dateBound. simpl.
      rewrite Hparse. reflexivity.
    + intros e Hin Hu Hle Hday. unfold windowOf, inWindow.
      apply filter_In. split; [assumption|].
      rewrite !andb_true_iff. repeat split.
      * apply String.eqb_eq. assumption.
      * apply Z.leb_le. assumption.
      * apply Z.leb_le. rewrite Hday. apply Z.le_refl.
Qed.

Example getLog_date_window_single_day :
  Server.getLog JS.utcHost "507f1f77bcf86cd799439011"
    (Some "2023-01-10") (Some "2023-01-10") None Sample.db
  = (logResponse Sample.alice
       [JObj [("description", JStr "run"); ("duration", JNum 30);
              ("date", JStr "Tue Jan 10 2023")];
        JObj [("description", JStr "row"); ("duration", JNum 15);
              ("date", JStr "Tue Jan 10 2023")];
        JObj [("description", JStr "lift"); ("duration", JNum 40);
              ("date", JStr "Tue Jan 10 2023")]],
     Sample.db).
Proof.
  refine (eq_trans
    (proj1 (getLog_date_window JS.utcHost Sample.db "507f1f77bcf86cd799439011"
              Sample.alice (Some "2023-01-10") (Some "2023-01-10")
              (Some 1673308800000) (Some 1673308800000) _ _ _)) _);
    vm_compute; reflexivity.
Defined.

(** On a host in UTC the upper bound is the last millisecond of the day
    that [to] names. *)
Lemma setHours_UTC_midnight rt (t : Z) :
  JS.LocalTZA rt = 0 -> t mod JS.msPerDay = 0 ->
  JS.setHours rt t 23 59 59 999 = t + 86399999.
Proof.
  intros Hz Hmid.
  unfold JS.setHours, JS.UTC, JS.MakeDate, JS.MakeTime, JS.LocalTime, JS.Day,
    JS.msPerDay in *.
  rewrite Hz. Z.div_mod_to_equations. lia.
Qed.

(** C1, at the inputs where the code leaves it.  The exercise "row" of
    the sample is dated noon UTC of 10 January 2023, which is 10 January
    on a host in UTC and on a host five hours behind it.  Asked for the
    log up to ["2023-01-10"], [src/server.js] returns it on the host in
    UTC and leaves it out on the host behind UTC, where [setHours] ends
    the window at 04:59:59.999 UTC of that day; the router of
    [part_000], which compares with the parsed instant, leaves it out on
    every host.  An exercise dated by the string ["2023-01-10"] itself is
    returned in all three cases. *)
Theorem getLog_to_day_cut_short :
  let logOf (rt : JS.Runtime) :=
    member "log"
      (body (fst (Server.getLog rt "507f1f77bcf86cd799439011"
                    (Some "2023-01-10") (Some "2023-01-10") None Sample.db))) in
  let entry (what : string) (mins : Z) (shown : string) :=
    JObj [("description", JStr what); ("duration", JNum mins); ("date", JStr shown)] in
  let embedded :=
    [{| Router.description := "run"; Router.duration := 30;
        Router.date := 1673308800000 |};
     {| Router.description := "row"; Router.duration := 15;
        Router.date := 1673352000000 |}] in
  JS.toDateString JS.utcHost 1673352000000 = "Tue Jan 10 2023"
  /\ JS.toDateString Sample.westHost 1673352000000 = "Tue Jan 10 2023"
  /\ logOf JS.utcHost
     = Some (JArr [entry "run" 30 "Tue Jan 10 2023";
                   entry "row" 15 "Tue Jan 10 2023";
                   entry "lift" 40 "Tue Jan 10 2023"])
  /\ logOf Sample.westHost = Some (JArr [entry "run" 30 "Mon Jan 09 2023"])
  /\ Router.queryLog JS.utcHost embedded (Some "2023-01-10") (Some "2023-01-10") None
     = [{| Router.description := "run"; Router.duration := 30;
           Router.date := 1673308800000 |}].
Proof. vm_compute. repeat split. Qed.

(** *** The limit and the count of the log (C2) *)



(** *** The exercise endpoint, case by case *)

Lemma addExercise_cases rt userId description duration date now oid db :
  Server.addExercise rt userId description duration date now oid db =
  if negb (JS.truthy description) || negb (JS.truthy duration)
  then (error 400 "Description and duration are required.", db)
  else
    match JS.parseInt (JS.ToString duration) with
    | None => (error 400 "Duration must be a number.", db)
    | Some n =>
        match User.findById rt (users db) userId with
        | inl _ => (error 400 "Invalid user ID format", db)
        | inr None => (error 404 "User not found", db)
        | inr (Some user) =>
            let e := newExercise user (JS.ToString description) n
                       (dateOrNow rt date now) oid in
            match Exercise.save (exercises db) e with
            | inr coll =>
                (exerciseResponse rt user e,
                 {| users := users db; exercises := coll |})
            | inl _ => (error 500 "Server error while adding exercise", db)
            end
        end
    end.
Proof.
  unfold Server.addExercise.
  destruct (negb (JS.truthy description) || negb (JS.truthy duration)); [reflexivity|].
  destruct (JS.parseInt (JS.ToString duration)) as [n|]; [|reflexivity].
  unfold tryCatch, bind, awaitRead, awaitWrite, saveExercise, User.findById.
  destruct (JS.castObjectId rt userId) as [cast|]; [|reflexivity].
  destruct (find _ (users db)) as [user|]; [|reflexivity].
  assert (Hdate :
    (if JS.truthy date && negb (JS.trim (JS.ToString date) =? "")%string
     then match JS.Date_parse rt (JS.ToString date) with
          | Some t => t
          | None => now
          end
     else now) = dateOrNow rt date now).
  { unfold dateOrNow. destruct date as [s|]; simpl; [|reflexivity].
    destruct (s =? "")%string; simpl; [reflexivity|].
    destruct (JS.trim s =? "")%string; reflexivity. }
  rewrite Hdate. unfold newExercise, exerciseResponse. simpl.
  unfold Exercise.save. simpl.
  destruct (JS.ToString description =? "")%string; [reflexivity|].
  destruct (existsb _ (exercises db)); reflexivity.
Qed.

Lemma getLog_cases rt userId from to limit db :
  Server.getLog rt userId from to limit db =
  match User.findById rt (users db) userId with
  | inl _ => (error 400 "Invalid user ID format", db)
  | inr None => (error 404 "User not found", db)
  | inr (Some user) =>
      match dateBound rt from with
      | None => (error 400 "Invalid 'from' date format. Use yyyy-mm-dd.", db)
      | Some gte =>
          match dateBound rt to with
          | None => (error 400 "Invalid 'to' date format. Use yyyy-mm-dd.", db)
          | Some lte =>
              match limitBound limit with
              | None =>
                  (error 400 "Invalid 'limit' value. Must be a positive integer.", db)
              | Some lim =>
                  (logResponse user
                     (map (entryOf rt)
                        (Exercise.applyLimit lim
                           (windowOf rt (User._id user) gte lte db))), db)
              end
          end
      end
  end.
Proof.
  destruct (User.findById rt (users db) userId) as [err|[user|]] eqn:Hfind.
  - unfold Server.getLog, tryCatch, bind, awaitRead. rewrite Hfind.
    unfold User.findById in Hfind.
    destruct (JS.castObjectId rt userId); [discriminate|].
    injection Hfind as <-. reflexivity.
  - apply getLog_found. assumption.
  - unfold Server.getLog, tryCatch, bind, awaitRead. rewrite Hfind. reflexivity.
Qed.

(** A new exercise with a description and an unused identifier is
    appended to the collection. *)
Lemma save_fresh (coll : list Exercise.doc) (e : Exercise.doc) :
  Exercise.description e <> "" ->
  existsb (fun x => (Exercise._id x =? Exercise._id e)%string) coll = false ->
  Exercise.save coll e = inr (coll ++ [e])%list.
Proof.
  intros Hd Hfresh. unfold Exercise.save.
  destruct (String.eqb_spec (Exercise.description e) ""); [contradiction|].
  rewrite Hfresh. reflexivity.
Qed.

Lemma addExercise_success rt userId description duration date now oid db user n :
  User.findById rt (users db) userId = inr (Some user) ->
  JS.truthy description = true ->
  JS.parseInt (JS.ToString duration) = Some n ->
  existsb (fun x => (Exercise._id x =? oid)%string) (exercises db) = false ->
  let e := newExercise user (JS.ToString description) n (dateOrNow rt date now) oid in
  Server.addExercise rt userId description duration date now oid db
  = (exerciseResponse rt user e,
     {| users := users db; exercises := (exercises db ++ [e])%list |}).
Proof.
  intros Hfind Hdesc Hdur Hfresh e.
  rewrite addExercise_cases, Hdesc, (parseInt_truthy _ _ Hdur), Hdur, Hfind.
  simpl. fold e. rewrite save_fresh; [reflexivity| |assumption].
  apply (truthy_ToString _ Hdesc).
Qed.

(** *** Adding an exercise and reading it back (C3) *)

Lemma windowOf_app rt oid (db : Db) (e : Exercise.doc) :
  Exercise.userId e = oid ->
  windowOf rt oid None None
    {| users := users db; exercises := (exercises db ++ [e])%list |}
  = (windowOf rt oid None None db ++ [e])%list.
Proof.
  intros Hu. unfold windowOf. simpl. rewrite filter_app. simpl.
  rewrite Hu, String.eqb_refl. reflexivity.
Qed.

(** C3.  For a user that exists, a description that is not empty and a
    duration that reads as a positive integer [n], [addExercise] answers
    with the exercise, and [getLog] without [from], [to] and [limit]
    then answers with the log it gave before followed by exactly that
    exercise: its description, its duration [n] and the date the answer
    of [addExercise] showed. *)
Theorem addExercise_then_getLog rt db userId user description duration date now oid n :
  User.findById rt (users db) userId = inr (Some user) ->
  JS.truthy description = true ->
  JS.parseInt (JS.ToString duration) = Some n ->
  0 < n ->
  existsb (fun x => (Exercise._id x =? oid)%string) (exercises db) = false ->
  let shown := JS.toDateString rt (dateOrNow rt date now) in
  let entry := JObj [("description", JStr (JS.ToString description));
                     ("duration", JNum n);
                     ("date", JStr shown)] in
  let before := map (entryOf rt) (windowOf rt (User._id user) None None db) in
  let after := Server.addExercise rt userId description duration date now oid db in
  fst after = ok [("_id", JStr (User._id user));
                  ("username", JStr (User.username user));
                  ("description", JStr (JS.ToString description));
                  ("duration", JNum n);
                  ("date", JStr shown)]
  /\ Server.getLog rt userId None None None db = (logResponse user before, db)
  /\ Server.getLog rt userId None None None (snd after)
     = (logResponse user (before ++ [entry])%list, snd after).
Proof.
  intros Hfind Hdesc Hdur Hpos Hfresh shown entry before after.
  unfold after.
  rewrite (addExercise_success _ _ _ _ date now _ _ _ _ Hfind Hdesc Hdur Hfresh).
  simpl. split; [reflexivity|]. split.
  - rewrite (getLog_found _ _ _ _ _ _ _ Hfind). reflexivity.
  - rewrite getLog_found with (user := user) by exact Hfind.
    unfold dateBound, limitBound. simpl.
    rewrite windowOf_app by reflexivity. rewrite map_app. reflexivity.
Qed.

Lemma addExercise_then_getLog_witness :
  Server.getLog JS.utcHost "507f1f77bcf86cd799439012" None None None
    (snd (Server.addExercise JS.utcHost "507f1f77bcf86cd799439012"
            (Some "bike") (Some "30") (Some "2020-02-02") 1700000000000
            "65a000000000000000000007" Sample.db))
  = (logResponse Sample.bob
       [JObj [("description", JStr "swim"); ("duration", JNum 45);
              ("date", JStr "Tue Jan 10 2023")];
        JObj [("description", JStr "bike"); ("duration", JNum 30);
              ("date", JStr "Sun Feb 02 2020")]],
     snd (Server.addExercise JS.utcHost "507f1f77bcf86cd799439012"
            (Some "bike") (Some "30") (Some "2020-02-02") 1700000000000
            "65a000000000000000000007" Sample.db)).
Proof.
  refine (eq_trans
    (proj2 (proj2 (addExercise_then_getLog JS.utcHost Sample.db
                     "507f1f77bcf86cd799439012" Sample.bob (Some "bike") (Some "30")
                     (Some "2020-02-02") 1700000000000 "65a000000000000000000007" 30
                     _ _ _ _ _))) _);
    vm_compute; reflexivity.
Defined.

(** *** The default date of an exercise in [src/server.js] *)

(** When the date of [Server.addExercise] is absent, empty, blank or does
    not parse, the call answers and writes exactly what it does without a
    date; and for a user that exists, a description and a duration that
    pass, it answers 200 and the exercise it creates carries the clock
    reading as its date. *)
Lemma addExercise_date_default rt db userId description duration date now oid :
  date = None \/ JS.trim (JS.ToString date) = ""
  \/ JS.Date_parse rt (JS.ToString date) = None ->
  Server.addExercise rt userId description duration date now oid db
  = Server.addExercise rt userId description duration None now oid db
  /\ forall user n,
       User.findById rt (users db) userId = inr (Some user) ->
       JS.truthy description = true ->
       JS.parseInt (JS.ToString duration) = Some n ->
       existsb (fun x => (Exercise._id x =? oid)%string) (exercises db) = false ->
       let e := newExercise user (JS.ToString description) n now oid in
       Server.addExercise rt userId description duration date now oid db
       = (ok [("_id", JStr (User._id user));
              ("username", JStr (User.username user));
              ("description", JStr (JS.ToString description));
              ("duration", JNum n);
              ("date", JStr (JS.toDateString rt now))],
          {| users := users db; exercises := (exercises db ++ [e])%list |}).
Proof.
  intros Hdate.
  assert (Hnow : dateOrNow rt date now = now).
  { unfold dateOrNow. destruct date as [s|]; [|reflexivity]. simpl in Hdate.
    destruct Hdate as [H|[H|H]]; [discriminate| |].
    - rewrite H. simpl. rewrite orb_true_r. reflexivity.
    - rewrite H. destruct ((s =? "")%string || (JS.trim s =? "")%string); reflexivity. }
  split.
  - rewrite !addExercise_cases, Hnow. reflexivity.
  - intros user n Hfind Hdesc Hdur Hfresh e.
    rewrite (addExercise_success _ _ _ _ date now _ _ _ _ Hfind Hdesc Hdur Hfresh).
    rewrite Hnow. reflexivity.
Qed.

Lemma addExercise_date_default_witness :
  Server.addExercise JS.utcHost "507f1f77bcf86cd799439012" (Some "bike") (Some "30")
    (Some "next tuesday") 1700000000000 "65a000000000000000000007" Sample.db
  = Server.addExercise JS.utcHost "507f1f77bcf86cd799439012" (Some "bike") (Some "30")
      None 1700000000000 "65a000000000000000000007" Sample.db.
Proof.
  refine (proj1 (addExercise_date_default JS.utcHost Sample.db
                   "507f1f77bcf86cd799439012" (Some "bike") (Some "30")
                   (Some "next tuesday") 1700000000000 "65a000000000000000000007" _)).
  right. right. vm_compute. reflexivity.
Defined.

(** *** Creating a user twice in [src/server.js] *)

Lemma createUser_cases username oid db :
  Server.createUser username oid db =
  if negb (JS.truthy username) then (error 400 "Username is required", db)
  else
    let name := JS.ToString username in
    match User.findOne (users db) name with
    | Some user =>
        (ok [("username", JStr (User.username user)); ("_id", JStr (User._id user))], db)
    | None =>
        match User.save (users db) {| User._id := oid; User.username := name |} with
        | inr coll =>
            (ok [("username", JStr name); ("_id", JStr oid)],
             {| users := coll; exercises := exercises db |})
        | inl err =>
            (if isDuplicateKey err then error 400 "Username already taken"
             else error 500 "Server error while creating user", db)
        end
    end.
Proof.
  unfold Server.createUser. destruct (negb (JS.truthy username)); [reflexivity|].
  unfold tryCatch, bind, awaitRead, awaitWrite, saveUser. simpl.
  destruct (User.findOne (users db) (JS.ToString username)); [reflexivity|].
  destruct (User.save _ _); reflexivity.
Qed.

Lemma findOne_name coll name user :
  User.findOne coll name = Some user -> User.username user = name /\ In user coll.
Proof.
  unfold User.findOne. intros H. apply find_some in H. destruct H as [Hin Heq].
  apply String.eqb_eq in Heq. split; assumption.
Qed.

Lemma findOne_app_new coll name oid :
  User.findOne coll name = None ->
  User.findOne (coll ++ [{| User._id := oid; User.username := name |}])%list name
  = Some {| User._id := oid; User.username := name |}.
Proof.
  unfold User.findOne. induction coll as [|u coll IH]; simpl.
  - rewrite String.eqb_refl. reflexivity.
  - destruct (User.username u =? name)%string; [discriminate|]. exact IH.
Qed.

(** When a user with the name exists, [Server.createUser] answers with
    that user's name and identifier and leaves the database, hence the
    list of users, as it was; and a call that answered 200 can be
    repeated with the same name: the second call gives the same answer
    and the same database, whatever identifier the driver would have
    drawn. *)
Lemma createUser_idempotent db name oid :
  name <> "" ->
  (forall user,
     User.findOne (users db) name = Some user ->
     Server.createUser (Some name) oid db
     = (ok [("username", JStr name); ("_id", JStr (User._id user))], db)
     /\ fst (Server.listUsers (snd (Server.createUser (Some name) oid db)))
        = fst (Server.listUsers db))
  /\ (forall oid2,
        let first := Server.createUser (Some name) oid db in
        status (fst first) = 200 ->
        Server.createUser (Some name) oid2 (snd first) = first).
Proof.
  intros Hname.
  assert (Htruthy : JS.truthy (Some name) = true).
  { simpl. destruct (String.eqb_spec name ""); [contradiction|reflexivity]. }
  split.
  - intros user Hfind. rewrite createUser_cases, Htruthy. simpl. rewrite Hfind.
    destruct (findOne_name _ _ _ Hfind) as [-> _]. split; reflexivity.
  - intros oid2 first. unfold first. rewrite !createUser_cases, Htruthy. simpl.
    destruct (User.findOne (users db) name) as [user|] eqn:Hfind.
    + intros _. simpl. rewrite Hfind. reflexivity.
    + unfold User.save. simpl.
      destruct (String.eqb_spec name ""); [contradiction|].
      destruct (existsb _ (users db)); simpl; [discriminate|].
      intros _. rewrite findOne_app_new by assumption. reflexivity.
Qed.

Lemma createUser_idempotent_witness :
  Server.createUser (Some "alice") "65a000000000000000000099" Sample.db
  = (ok [("username", JStr "alice"); ("_id", JStr "507f1f77bcf86cd799439011")],
     Sample.db).
Proof.
  refine (proj1 (proj1 (createUser_idempotent Sample.db "alice"
                          "65a000000000000000000099" _) Sample.alice _)).
  - discriminate.
  - reflexivity.
Defined.

(** *** The identifiers and the fields of the answers (C10) *)



(** *** What [addExercise] checks of its body (C4) *)

(** The checks [src/server.js] does make: an empty or absent description
    or duration, and a duration without a leading integer, are refused
    with 400 and nothing is written. *)
Lemma addExercise_refuses rt userId description duration date now oid db :
  JS.truthy description = false \/ JS.truthy duration = false
  \/ JS.parseInt (JS.ToString duration) = None ->
  status (fst (Server.addExercise rt userId description duration date now oid db)) = 400
  /\ snd (Server.addExercise rt userId description duration date now oid db) = db.
Proof.
  intros H. rewrite addExercise_cases.
  destruct (JS.truthy description); simpl; [|split; reflexivity].
  destruct (JS.truthy duration); simpl; [|split; reflexivity].
  destruct H as [H|[H|H]]; try discriminate.
  rewrite H. split; reflexivity.
Qed.

(** The second application refuses every duration that does not read as a
    positive integer, once the user is found. *)
Lemma App2_addExercise_refuses rt userId description duration date now oid db user :
  User.findById rt (users db) userId = inr (Some user) ->
  (forall n, JS.parseInt (JS.ToString duration) = Some n -> n <= 0) ->
  status (fst (App2.addExercise rt userId description duration date now oid db)) = 400
  /\ snd (App2.addExercise rt userId description duration date now oid db) = db.
Proof.
  intros Hfind Hdur. unfold App2.addExercise, tryCatch, bind, awaitRead.
  destruct (negb (JS.truthy description) || negb (JS.truthy duration));
    [split; reflexivity|].
  rewrite Hfind.
  destruct (JS.truthy date);
    [destruct (JS.Date_parse rt (JS.ToString date)); [|split; reflexivity]|];
    simpl;
    (destruct (JS.parseInt (JS.ToString duration)) as [n|]; [|split; reflexivity];
     specialize (Hdur n eq_refl);
     destruct (Z.leb_spec n 0); [split; reflexivity|lia]).
Qed.

(** C4, at the input where the code leaves it.  With the duration ["-1"],
    [addExercise] of [src/server.js] answers 200 and stores an exercise
    of duration -1; the second application answers 400 to the same
    request and stores nothing.  With ["30"] both answer 200. *)
Theorem addExercise_negative_duration :
  let request (app : JS.Runtime -> string -> option string -> option string ->
                     option string -> Z -> string -> Db -> Response * Db)
              (duration : string) :=
    app JS.utcHost "507f1f77bcf86cd799439012" (Some "bike") (Some duration) None
      1700000000000 "65a000000000000000000007" Sample.db in
  let stored (duration : Z) :=
    {| users := users Sample.db;
       exercises :=
         (exercises Sample.db
          ++ [newExercise Sample.bob "bike" duration 1700000000000
                "65a000000000000000000007"])%list |} in
  request Server.addExercise "-1"
  = (ok [("_id", JStr "507f1f77bcf86cd799439012"); ("username", JStr "bob");
         ("description", JStr "bike"); ("duration", JNum (-1));
         ("date", JStr "Tue Nov 14 2023")], stored (-1))
  /\ request App2.addExercise "-1"
     = (error 400 "La duracion debe ser un numero positivo.", Sample.db)
  /\ status (fst (request Server.addExercise "30")) = 200
  /\ status (fst (request App2.addExercise "30")) = 200.
Proof. vm_compute. repeat split. Qed.

(** *** What [getLog] checks of its query (C5) *)

(** C5 as stated fails: a limit that is present and is not a number is
    not refused; the request is answered 200 with the log it has without
    a limit.  And the user is looked up first: a date that does not parse
    is answered 404 when the identifier names no user. *)
Lemma getLog_non_numeric_limit :
  JS.truthy (Some "abc") = true
  /\ JS.parseInt "abc" = None
  /\ status (fst (Server.getLog JS.utcHost "507f1f77bcf86cd799439012"
                    None None (Some "abc") Sample.db)) = 200
  /\ member "log" (body (fst (Server.getLog JS.utcHost "507f1f77bcf86cd799439012"
                                None None (Some "abc") Sample.db)))
     = Some (JArr [JObj [("description", JStr "swim"); ("duration", JNum 45);
                         ("date", JStr "Tue Jan 10 2023")]])
  /\ JS.Date_parse JS.utcHost "yesterday" = None
  /\ Server.getLog JS.utcHost "507f1f77bcf86cd799439099" (Some "yesterday") None None
       Sample.db
     = (error 404 "User not found", Sample.db).
Proof. vm_compute. repeat split. Qed.

(** C5, amended.  For a user that exists: when [from] or [to] is present
    and does not parse, or [limit] reads as an integer that is not
    positive, [getLog] answers 400 with an error and no log, and the
    database is as it was; a limit without a leading integer is ignored,
    the answer being that of the request without a limit. *)
Theorem getLog_validation rt db userId user from to limit :
  User.findById rt (users db) userId = inr (Some user) ->
  ((JS.truthy from = true /\ JS.Date_parse rt (JS.ToString from) = None)
   \/ (JS.truthy to = true /\ JS.Date_parse rt (JS.ToString to) = None)
   \/ (exists n, JS.parseInt (JS.ToString limit) = Some n /\ n <= 0) ->
   status (fst (Server.getLog rt userId from to limit db)) = 400
   /\ keys (body (fst (Server.getLog rt userId from to limit db))) = ["error"]
   /\ snd (Server.getLog rt userId from to limit db) = db)
  /\ (JS.truthy limit = true -> JS.parseInt (JS.ToString limit) = None ->
      Server.getLog rt userId from to limit db
      = Server.getLog rt userId from to None db).
Proof.
  intros Hfind. split.
  - intros Hbad. rewrite (getLog_found _ _ _ _ _ _ _ Hfind).
    assert (Hcase :
      dateBound rt from = None \/ dateBound rt to = None \/ limitBound limit = None).
    { destruct Hbad as [[Ht Hp]|[[Ht Hp]|(n & Hp & Hn)]].
      - left. unfold dateBound. rewrite Ht, Hp. reflexivity.
      - right. left. unfold dateBound. rewrite Ht, Hp. reflexivity.
      - right. right. unfold limitBound.
        rewrite (parseInt_truthy _ _ Hp), Hp.
        destruct (Z.ltb_spec 0 n); [lia|reflexivity]. }
    destruct (dateBound rt from); [|repeat split].
    destruct (dateBound rt to); [|repeat split].
    destruct (limitBound limit); [|repeat split].
    destruct Hcase as [H|[H|H]]; discriminate.
  - intros Ht Hp. rewrite !(getLog_found _ _ _ _ _ _ _ Hfind).
    unfold limitBound. rewrite Ht, Hp. reflexivity.
Qed.

Lemma getLog_validation_witness :
  status (fst (Server.getLog JS.utcHost "507f1f77bcf86cd799439012"
                 (Some "yesterday") None (Some "0") Sample.db)) = 400
  /\ keys (body (fst (Server.getLog JS.utcHost "507f1f77bcf86cd799439012"
                        (Some "yesterday") None (Some "0") Sample.db))) = ["error"]
  /\ snd (Server.getLog JS.utcHost "507f1f77bcf86cd799439012"
            (Some "yesterday") None (Some "0") Sample.db) = Sample.db.
Proof.
  refine (proj1 (getLog_validation JS.utcHost Sample.db "507f1f77bcf86cd799439012"
                   Sample.bob (Some "yesterday") None (Some "0") _) _).
  - vm_compute. reflexivity.
  - left. split; vm_compute; reflexivity.
Defined.

(** *** Identifiers that name no user (C6) *)

(** C6 as stated fails: ["nonexistent-id"] is not an [ObjectId]; the
    lookup throws a cast error on [_id] and both endpoints answer 400,
    not 404.  And [addExercise] checks its body before it looks the user
    up: without a description, an identifier that names no user is
    answered 400 as well. *)
Lemma malformed_id_is_400 :
  JS.castObjectId JS.utcHost "nonexistent-id" = None
  /\ Server.getLog JS.utcHost "nonexistent-id" None None None Sample.db
     = (error 400 "Invalid user ID format", Sample.db)
  /\ Server.addExercise JS.utcHost "nonexistent-id" (Some "bike") (Some "30") None
       1700000000000 "65a000000000000000000007" Sample.db
     = (error 400 "Invalid user ID format", Sample.db)
  /\ User.findById JS.utcHost (users Sample.db) "507f1f77bcf86cd799439099" = inr None
  /\ Server.addExercise JS.utcHost "507f1f77bcf86cd799439099" None (Some "30") None
       1700000000000 "65a000000000000000000007" Sample.db
     = (error 400 "Description and duration are required.", Sample.db).
Proof. vm_compute. repeat split. Qed.

(** C6, amended.  An identifier that is well formed and names no user is
    answered 404 by [getLog] and, when description and duration pass, by
    [addExercise]; an identifier that is not well formed is answered 400
    in the same places; in every one of these cases the database is as
    it was. *)
Theorem unknown_user rt db userId from to limit description duration date now oid :
  (User.findById rt (users db) userId = inr None ->
   Server.getLog rt userId from to limit db = (error 404 "User not found", db)
   /\ snd (Server.addExercise rt userId description duration date now oid db) = db
   /\ (forall n,
         JS.truthy description = true ->
         JS.parseInt (JS.ToString duration) = Some n ->
         Server.addExercise rt userId description duration date now oid db
         = (error 404 "User not found", db)))
  /\ (JS.castObjectId rt userId = None ->
      Server.getLog rt userId from to limit db
      = (error 400 "Invalid user ID format", db)
      /\ snd (Server.addExercise rt userId description duration date now oid db) = db
      /\ (forall n,
            JS.truthy description = true ->
            JS.parseInt (JS.ToString duration) = Some n ->
            Server.addExercise rt userId description duration date now oid db
            = (error 400 "Invalid user ID format", db))).
Proof.
  split.
  - intros Hfind. split; [|split].
    + rewrite getLog_cases, Hfind. reflexivity.
    + rewrite addExercise_cases, Hfind.
      destruct (negb (JS.truthy description) || negb (JS.truthy duration));
        [reflexivity|].
      destruct (JS.parseInt (JS.ToString duration)); reflexivity.
    + intros n Hdesc Hdur.
      rewrite addExercise_cases, Hdesc, (parseInt_truthy _ _ Hdur), Hdur, Hfind.
      reflexivity.
  - intros Hcast.
    assert (Hfind : User.findById rt (users db) userId = inl (CastError "_id")).
    { unfold User.findById. rewrite Hcast. reflexivity. }
    split; [|split].
    + rewrite getLog_cases, Hfind. reflexivity.
    + rewrite addExercise_cases, Hfind.
      destruct (negb (JS.truthy description) || negb (JS.truthy duration));
        [reflexivity|].
      destruct (JS.parseInt (JS.ToString duration)); reflexivity.
    + intros n Hdesc Hdur.
      rewrite addExercise_cases, Hdesc, (parseInt_truthy _ _ Hdur), Hdur, Hfind.
      reflexivity.
Qed.

Lemma unknown_user_witness :
  Server.getLog JS.utcHost "507f1f77bcf86cd799439099" None None None Sample.db
  = (error 404 "User not found", Sample.db).
Proof.
  refine (proj1 (proj1 (unknown_user JS.utcHost Sample.db "507f1f77bcf86cd799439099"
                          None None None None None None 0 "") _)).
  vm_compute. reflexivity.
Defined.

(** *** The rendering of dates (C8) *)

Lemma WeekDay_range t : 0 <= JS.WeekDay t <= 6.
Proof. unfold JS.WeekDay. pose proof (Z.mod_pos_bound (JS.Day t + 4) 7). lia. Qed.

Lemma civil_from_days_range z :
  1 <= snd (fst (JS.civil_from_days z)) <= 12
  /\ 1 <= snd (JS.civil_from_days z) <= 31.
Proof.
  unfold JS.civil_from_days. cbv zeta.
  set (doe := z + 719468 - (z + 719468) / 146097 * 146097).
  assert (Hdoe : 0 <= doe <= 146096).
  { unfold doe. Z.div_mod_to_equations. lia. }
  clearbody doe.
  set (yoe := (doe - doe / 1460 + doe / 36524 - doe / 146096) / 365).
  set (doy := doe - (365 * yoe + yoe / 4 - yoe / 100)).
  assert (Hdoy : 0 <= doy <= 365).
  { unfold doy, yoe. Z.div_mod_to_equations. lia. }
  clearbody doy. cbn [fst snd].
  destruct (Z.ltb_spec ((5 * doy + 2) / 153) 10);
    split; Z.div_mod_to_equations; lia.
Qed.

Lemma nth_names (names : list string) (k : Z) :
  0 <= k < Z.of_nat (List.length names) -> In (nth (Z.to_nat k) names "") names.
Proof. intros H. apply nth_In. lia. Qed.

Lemma allDigits_app a b : allDigits (a ++ b) = allDigits a && allDigits b.
Proof.
  induction a as [|c a IH]; simpl; [reflexivity|].
  rewrite IH, andb_assoc. reflexivity.
Qed.

Lemma zeros_spec k : String.length (JS.zeros k) = k /\ allDigits (JS.zeros k) = true.
Proof. induction k as [|k [IHl IHd]]; simpl; [split; reflexivity|]. rewrite IHl, IHd. split; reflexivity. Qed.

Lemma string_of_uint_digits d : allDigits (NilEmpty.string_of_uint d) = true.
Proof. induction d; simpl; try rewrite IHd; reflexivity. Qed.

Lemma append_length a b : String.length (a ++ b) = (String.length a + String.length b)%nat.
Proof. induction a as [|c a IH]; simpl; [reflexivity|]. rewrite IH. reflexivity. Qed.

(** A padded number is made of digits and has the length asked for, or
    that of the number when it is longer. *)
Lemma padded_spec n k :
  allDigits (JS.ToZeroPaddedDecimalString n k) = true
  /\ (k <= String.length (JS.ToZeroPaddedDecimalString n k))%nat.
Proof.
  unfold JS.ToZeroPaddedDecimalString.
  set (str := NilZero.string_of_uint (N.to_uint (Z.to_N n))).
  assert (Hd : allDigits str = true).
  { unfold str, NilZero.string_of_uint.
    destruct (N.to_uint (Z.to_N n)) eqn:E; try reflexivity;
      rewrite <- E; apply string_of_uint_digits. }
  destruct (zeros_spec (k - String.length str)) as [Hl Hz].
  rewrite allDigits_app, Hz, Hd, append_length, Hl. split; [reflexivity|lia].
Qed.

(** Checking a property of the numbers below a bound by running it. *)
Lemma below_forallb (P : Z -> bool) (n : nat) :
  forallb (fun k => P (Z.of_nat k)) (seq 0 n) = true ->
  forall z, 0 <= z < Z.of_nat n -> P z = true.
Proof.
  intros H z Hz. rewrite forallb_forall in H.
  specialize (H (Z.to_nat z)). rewrite Z2Nat.id in H by lia.
  apply H. apply in_seq. lia.
Qed.

Lemma padded_length_exact (k : nat) (bound : Z) :
  forallb (fun i => (String.length (JS.ToZeroPaddedDecimalString (Z.of_nat i) k) =? k)%nat)
          (seq 0 (Z.to_nat bound)) = true ->
  forall n, 0 <= n < bound ->
  String.length (JS.ToZeroPaddedDecimalString n k) = k.
Proof.
  intros H n Hn. apply Nat.eqb_eq.
  apply (below_forallb
           (fun z => (String.length (JS.ToZeroPaddedDecimalString z k) =? k)%nat)
           (Z.to_nat bound) H n).
  lia.
Qed.

Lemma day_two_digits n :
  0 <= n < 100 -> String.length (JS.ToZeroPaddedDecimalString n 2) = 2%nat.
Proof. apply (padded_length_exact 2 100). vm_compute. reflexivity. Qed.

Lemma year_four_digits n :
  0 <= n < 10000 -> String.length (JS.ToZeroPaddedDecimalString n 4) = 4%nat.
Proof. apply (padded_length_exact 4 10000). vm_compute. reflexivity. Qed.

(** Every time value is rendered in the calendar form. *)
Lemma DateString_form t : isCalendarString (JS.DateString t).
Proof.
  unfold JS.DateString, isCalendarString.
  exists (JS.weekdayName (JS.WeekDay t)), (JS.monthName (JS.MonthFromTime t)),
    (JS.ToZeroPaddedDecimalString (JS.DateFromTime t) 2),
    (if 0 <=? JS.YearFromTime t then "" else "-"),
    (JS.ToZeroPaddedDecimalString (Z.abs (JS.YearFromTime t)) 4).
  pose proof (civil_from_days_range (JS.Day t)) as [Hm Hd].
  split; [reflexivity|]. repeat split.
  - apply nth_names. pose proof (WeekDay_range t).
    change (Z.of_nat (List.length JS.weekdayNames)) with 7. lia.
  - apply nth_names. unfold JS.MonthFromTime.
    change (Z.of_nat (List.length JS.monthNames)) with 12. lia.
  - apply day_two_digits. unfold JS.DateFromTime. lia.
  - apply padded_spec.
  - destruct (0 <=? JS.YearFromTime t); [left|right]; reflexivity.
  - apply padded_spec.
  - apply padded_spec.
Qed.

(** In the years 0 to 9999 the rendering has 15 characters, the year
    taking four. *)
Lemma DateString_length t :
  0 <= JS.YearFromTime t <= 9999 -> String.length (JS.DateString t) = 15%nat.
Proof.
  intros Hy. unfold JS.DateString.
  pose proof (civil_from_days_range (JS.Day t)) as [Hm Hd].
  pose proof (WeekDay_range t) as Hw.
  assert (Hwl : String.length (JS.weekdayName (JS.WeekDay t)) = 3%nat).
  { unfold JS.weekdayName.
    set (k := Z.to_nat (JS.WeekDay t)).
    assert (H : (k < 7)%nat) by (unfold k; lia).
    do 7 (destruct k as [|k]; [reflexivity|]); lia. }
  assert (Hml : String.length (JS.monthName (JS.MonthFromTime t)) = 3%nat).
  { unfold JS.monthName, JS.MonthFromTime.
    set (k := Z.to_nat (snd (fst (JS.civil_from_days (JS.Day t))) - 1)).
    assert (H : (k < 12)%nat) by (unfold k; lia).
    do 12 (destruct k as [|k]; [reflexivity|]); lia. }
  destruct (Z.leb_spec 0 (JS.YearFromTime t)); [|lia].
  rewrite !append_length, Hwl, Hml, day_two_digits, Z.abs_eq, year_four_digits;
    unfold JS.DateFromTime; try lia.
  reflexivity.
Qed.

(** The rendering reads the time value by its day only. *)
Lemma DateString_Day t1 t2 : JS.Day t1 = JS.Day t2 -> JS.DateString t1 = JS.DateString t2.
Proof.
  intros H. unfold JS.DateString, JS.WeekDay, JS.YearFromTime, JS.MonthFromTime,
    JS.DateFromTime. rewrite H. reflexivity.
Qed.

(** Midnight UTC of 2 February 2020 is shown as that day on a host whose
    local time is UTC or ahead of it. *)
Lemma toDateString_20200202 rt :
  0 <= JS.LocalTZA rt < JS.msPerDay ->
  JS.toDateString rt 1580601600000 = "Sun Feb 02 2020".
Proof.
  intros Hz. unfold JS.toDateString, JS.LocalTime.
  rewrite (DateString_Day _ 1580601600000); [vm_compute; reflexivity|].
  unfold JS.Day, JS.msPerDay in *. Z.div_mod_to_equations. lia.
Qed.

Lemma save_appends (coll coll' : list Exercise.doc) (e : Exercise.doc) :
  Exercise.save coll e = inr coll' -> coll' = (coll ++ [e])%list.
Proof.
  unfold Exercise.save.
  destruct (Exercise.description e =? "")%string; [discriminate|].
  destruct (existsb _ coll); [discriminate|].
  intros H. injection H as <-. reflexivity.
Qed.

Lemma applyLimit_incl {A} (lim : option Z) (l : list A) :
  incl (Exercise.applyLimit lim l) l.
Proof.
  unfold Exercise.applyLimit. destruct lim as [n|]; [|apply incl_refl].
  destruct (n =? 0); [apply incl_refl|].
  intros x Hx. rewrite <- (firstn_skipn (Z.abs_nat n) l).
  apply in_or_app. left. exact Hx.
Qed.

Lemma windowOf_incl rt oid gte lte db : incl (windowOf rt oid gte lte db) (exercises db).
Proof. unfold windowOf. intros x Hx. apply filter_In in Hx. apply Hx. Qed.

(** On a host behind UTC the date submitted as ["2020-02-02"] is read as
    midnight UTC of that day and shown in local time, where it is still
    the evening of the first of February: the reading and the rendering
    disagree on the zone, as they do for the bounds of the log.  The
    first day of the year 10000 is the time value 253402300800000. *)
Lemma echo_behind_UTC :
  let after :=
    Server.addExercise Sample.westHost "507f1f77bcf86cd799439012" (Some "bike")
      (Some "30") (Some "2020-02-02") 1700000000000 "65a000000000000000000007"
      Sample.db in
  JS.Date_parse Sample.westHost "2020-02-02" = Some 1580601600000
  /\ member "date" (body (fst after)) = Some (JStr "Sat Feb 01 2020")
  /\ member "log"
       (body (fst (Server.getLog Sample.westHost "507f1f77bcf86cd799439012"
                     (Some "2020-02-02") None None (snd after))))
     = Some (JArr [JObj [("description", JStr "swim"); ("duration", JNum 45);
                         ("date", JStr "Mon Jan 09 2023")];
                   JObj [("description", JStr "bike"); ("duration", JNum 30);
                         ("date", JStr "Sat Feb 01 2020")]])
  /\ JS.toDateString JS.utcHost 253402300800000 = "Sat Jan 01 10000".
Proof. vm_compute. repeat split. Qed.




(** *** The other copies of the application

    Where [part_000] goes its own way on a point above. *)

(** The router cuts the filtered log to a positive limit as
    [src/server.js] does, and counts what it returns. *)
Lemma Router_limit rt (log : list Router.entry) from to limit n :
  JS.parseInt (JS.ToString limit) = Some n -> 0 < n ->
  Router.queryLog rt log from to limit
  = firstn (Z.to_nat n) (Router.queryLog rt log from to None).
Proof.
  intros Hlimit Hpos. unfold Router.queryLog.
  rewrite (parseInt_truthy _ _ Hlimit), Hlimit. simpl.
  set (l := if JS.truthy to then _ else _).
  unfold Router.slice0. destruct (Z.ltb_spec n 0); [lia|].
  destruct (Z.le_ge_cases n (Z.of_nat (List.length l))).
  - rewrite Z.min_l by assumption. reflexivity.
  - rewrite Z.min_r by assumption. rewrite Nat2Z.id.
    rewrite firstn_all, firstn_all2; [reflexivity|lia].
Qed.

(** The second application answers 400 to a date that is present and
    does not parse, where [src/server.js] takes the clock reading. *)
Lemma App2_addExercise_invalid_date rt userId description duration date now oid db user :
  User.findById rt (users db) userId = inr (Some user) ->
  JS.truthy description = true -> JS.truthy duration = true ->
  JS.truthy date = true -> JS.Date_parse rt (JS.ToString date) = None ->
  App2.addExercise rt userId description duration date now oid db
  = (error 400 "Formato de fecha invalido", db).
Proof.
  intros Hfind Hdesc Hdur Hdate Hparse.
  unfold App2.addExercise, tryCatch, bind, awaitRead.
  rewrite Hdesc, Hdur. cbn [negb orb]. rewrite Hfind, Hdate, Hparse. reflexivity.
Qed.

(** ** More of the handlers

    What follows is read off the handlers themselves: what each request
    can do to the database, what the collections keep satisfying, and how
    the requests compose. *)

(** *** One request at a time *)

Lemma existsb_id_false {A} (key : A -> string) (k : string) (l : list A) :
  existsb (fun x => (key x =? k)%string) l = false <-> ~ In k (map key l).
Proof.
  induction l as [|a l IH]; simpl; [tauto|].
  rewrite orb_false_iff, IH. destruct (String.eqb_spec (key a) k); intuition congruence.
Qed.

Lemma findOne_None coll name :
  User.findOne coll name = None <-> ~ In name (map User.username coll).
Proof.
  unfold User.findOne. induction coll as [|u coll IH]; simpl; [tauto|].
  destruct (String.eqb_spec (User.username u) name); [|tauto].
  split; [discriminate|]. intros H. exfalso. apply H. left. assumption.
Qed.

(** What [createUser] does, by the case it is in. *)
Lemma createUser_step username oid db :
  Server.createUser username oid db =
  if negb (JS.truthy username) then (error 400 "Username is required", db)
  else
    let name := JS.ToString username in
    match User.findOne (users db) name with
    | Some user =>
        (ok [("username", JStr name); ("_id", JStr (User._id user))], db)
    | None =>
        if existsb (fun u => (User._id u =? oid)%string) (users db)
        then (error 400 "Username already taken", db)
        else (ok [("username", JStr name); ("_id", JStr oid)],
              {| users := (users db ++ [{| User._id := oid; User.username := name |}])%list;
                 exercises := exercises db |})
    end.
Proof.
  rewrite createUser_cases. destruct (JS.truthy username) eqn:Ht; [|reflexivity].
  cbn [negb]. cbv zeta. destruct (truthy_ToString _ Ht) as [_ Hne].
  destruct (User.findOne (users db) (JS.ToString username)) as [user|] eqn:Hfind.
  - destruct (findOne_name _ _ _ Hfind) as [-> _]. reflexivity.
  - unfold User.save. cbn [User.username User._id].
    destruct (String.eqb_spec (JS.ToString username) ""); [contradiction|].
    assert (Hn : existsb (fun v => (User.username v =? JS.ToString username)%string)
                   (users db) = false).
    { apply existsb_id_false, findOne_None, Hfind. }
    assert (Hsplit : forall l,
      existsb (fun v => (User._id v =? oid)%string
                        || (User.username v =? JS.ToString username)%string) l
      = existsb (fun u => (User._id u =? oid)%string) l
        || existsb (fun v => (User.username v =? JS.ToString username)%string) l).
    { induction l as [|a l IH]; simpl; [reflexivity|]. rewrite IH.
      destruct (User._id a =? oid)%string, (User.username a =? JS.ToString username)%string,
        (existsb (fun u => (User._id u =? oid)%string) l); reflexivity. }
    rewrite Hsplit, Hn, orb_false_r.
    destruct (existsb (fun u => (User._id u =? oid)%string) (users db)); reflexivity.
Qed.

Lemma reads_effect rt userId from to limit db :
  snd (Server.getLog rt userId from to limit db) = db
  /\ snd (Server.listUsers db) = db
  /\ fst (Server.listUsers db)
     = {| status := 200;
          body := JArr (map (fun u => JObj [("_id", JStr (User._id u));
                                           ("username", JStr (User.username u))])
                            (users db)) |}.
Proof.
  split; [|split; reflexivity].
  rewrite getLog_cases.
  destruct (User.findById rt (users db) userId) as [err|[user|]]; try reflexivity.
  destruct (dateBound rt from); [|reflexivity].
  destruct (dateBound rt to); [|reflexivity].
  destruct (limitBound limit); reflexivity.
Qed.

(** The log endpoint and the list of users read the database and leave it
    as it is, whatever the request. *)
Theorem reads_never_write rt userId from to limit db :
  snd (Server.getLog rt userId from to limit db) = db
  /\ snd (Server.listUsers db) = db
  /\ fst (Server.listUsers db)
     = {| status := 200;
          body := JArr (map (fun u => JObj [("_id", JStr (User._id u));
                                           ("username", JStr (User.username u))])
                            (users db)) |}.
Proof. exact (reads_effect rt userId from to limit db). Qed.

Lemma addExercise_effect rt userId description duration date now oid db :
  let answer := fst (Server.addExercise rt userId description duration date now oid db) in
  let db' := snd (Server.addExercise rt userId description duration date now oid db) in
  users db' = users db
  /\ (status answer = 200 ->
      exists user e,
        User.findById rt (users db) userId = inr (Some user)
        /\ exercises db' = (exercises db ++ [e])%list
        /\ Exercise._id e = oid
        /\ Exercise.userId e = User._id user
        /\ Exercise.description e = JS.ToString description
        /\ JS.parseInt (JS.ToString duration) = Some (Exercise.duration e)
        /\ Exercise.date e = dateOrNow rt date now
        /\ ~ In oid (map Exercise._id (exercises db)))
  /\ (status answer <> 200 -> db' = db).
Proof.
  cbv zeta. rewrite addExercise_cases.
  destruct (negb (JS.truthy description) || negb (JS.truthy duration)).
  { split; [reflexivity|]. split; [discriminate|reflexivity]. }
  destruct (JS.parseInt (JS.ToString duration)) as [n|].
  2:{ split; [reflexivity|]. split; [discriminate|reflexivity]. }
  destruct (User.findById rt (users db) userId) as [err|[user|]].
  1,3: (split; [reflexivity|]; split; [discriminate|reflexivity]).
  cbv zeta. destruct (Exercise.save _ _) as [err|coll] eqn:Hsave.
  { split; [reflexivity|]. split; [discriminate|reflexivity]. }
  split; [reflexivity|]. split; [|intros H; exfalso; apply H; reflexivity].
  intros _. exists user. eexists. split; [reflexivity|].
  split; [exact (save_appends _ _ _ Hsave)|]. repeat split.
  unfold Exercise.save in Hsave. cbn [Exercise.description Exercise._id newExercise] in Hsave.
  destruct (JS.ToString description =? "")%string; [discriminate|].
  destruct (existsb _ (exercises db)) eqn:He; [discriminate|].
  apply (existsb_id_false Exercise._id oid). exact He.
Qed.

(** [addExercise] writes exactly when it answers 200, and then it appends
    one exercise, with the identifier drawn for it and the identifier of
    the user found; the users are never touched. *)
Theorem addExercise_writes_iff_200 rt userId description duration date now oid db :
  let answer := fst (Server.addExercise rt userId description duration date now oid db) in
  let db' := snd (Server.addExercise rt userId description duration date now oid db) in
  users db' = users db
  /\ (status answer = 200 ->
      exists user e,
        User.findById rt (users db) userId = inr (Some user)
        /\ exercises db' = (exercises db ++ [e])%list
        /\ Exercise._id e = oid
        /\ Exercise.userId e = User._id user
        /\ Exercise.description e = JS.ToString description
        /\ JS.parseInt (JS.ToString duration) = Some (Exercise.duration e)
        /\ Exercise.date e = dateOrNow rt date now
        /\ ~ In oid (map Exercise._id (exercises db)))
  /\ (status answer <> 200 -> db' = db).
Proof. exact (addExercise_effect rt userId description duration date now oid db). Qed.

Lemma addExercise_writes_iff_200_witness :
  exists user e,
    User.findById JS.utcHost (users Sample.db) "507f1f77bcf86cd799439012"
    = inr (Some user)
    /\ exercises (snd (Server.addExercise JS.utcHost "507f1f77bcf86cd799439012"
                         (Some "bike") (Some "30") None 1700000000000
                         "65a000000000000000000007" Sample.db))
       = (exercises Sample.db ++ [e])%list
    /\ Exercise._id e = "65a000000000000000000007"
    /\ Exercise.userId e = User._id user
    /\ Exercise.description e = "bike"
    /\ JS.parseInt "30" = Some (Exercise.duration e)
    /\ Exercise.date e = 1700000000000
    /\ ~ In "65a000000000000000000007" (map Exercise._id (exercises Sample.db)).
Proof.
  refine (proj1 (proj2 (addExercise_writes_iff_200 JS.utcHost
                          "507f1f77bcf86cd799439012" (Some "bike") (Some "30") None
                          1700000000000 "65a000000000000000000007" Sample.db)) _).
  vm_compute. reflexivity.
Defined.

Lemma createUser_effect username oid db :
  let answer := fst (Server.createUser username oid db) in
  let db' := snd (Server.createUser username oid db) in
  (status answer = 200 \/ status answer = 400)
  /\ exercises db' = exercises db
  /\ (status answer = 200 ->
      exists user,
        In user (users db')
        /\ User.username user = JS.ToString username
        /\ answer = ok [("username", JStr (User.username user));
                        ("_id", JStr (User._id user))]
        /\ (db' = db
            \/ (User._id user = oid
                /\ users db' = (users db ++ [user])%list
                /\ ~ In (User.username user) (map User.username (users db)))))
  /\ (status answer = 400 ->
      db' = db
      /\ (JS.truthy username = false \/ In oid (map User._id (users db)))).
Proof.
  cbv zeta. rewrite createUser_step.
  destruct (JS.truthy username) eqn:Ht; cbn [negb].
  2:{ repeat split; auto; discriminate. }
  cbv zeta.
  destruct (User.findOne (users db) (JS.ToString username)) as [user|] eqn:Hfind.
  - destruct (findOne_name _ _ _ Hfind) as [Hname Hin].
    split; [left; reflexivity|]. split; [reflexivity|]. split; [|discriminate].
    intros _. exists user. rewrite Hname. repeat split; auto.
  - destruct (existsb _ (users db)) eqn:Hid.
    + split; [right; reflexivity|]. split; [reflexivity|]. split; [discriminate|].
      intros _. split; [reflexivity|]. right.
      destruct (in_dec string_dec oid (map User._id (users db))) as [H|H]; [exact H|].
      apply (existsb_id_false User._id oid) in H. congruence.
    + split; [left; reflexivity|]. split; [reflexivity|]. split; [|discriminate].
      intros _. eexists. split; [apply in_or_app; right; left; reflexivity|].
      repeat split. right. repeat split. apply findOne_None. exact Hfind.
Qed.

(** [createUser] never touches the exercises.  When it answers 200, the
    answer names a user of the resulting collection that has the name
    asked for: one that was stored already, and then nothing is written,
    or the one just appended under the identifier drawn, whose name was
    not stored before.  Any other answer leaves the database as it
    was. *)
Theorem createUser_stores_what_it_answers username oid db :
  let answer := fst (Server.createUser username oid db) in
  let db' := snd (Server.createUser username oid db) in
  exercises db' = exercises db
  /\ (status answer = 200 ->
      exists user,
        In user (users db')
        /\ User.username user = JS.ToString username
        /\ answer = ok [("username", JStr (User.username user));
                        ("_id", JStr (User._id user))]
        /\ (db' = db
            \/ (User._id user = oid
                /\ users db' = (users db ++ [user])%list
                /\ ~ In (User.username user) (map User.username (users db)))))
  /\ (status answer <> 200 -> db' = db).
Proof.
  destruct (createUser_effect username oid db) as (Hst & Hex & Hok & Hbad).
  cbv zeta. split; [exact Hex|]. split; [exact Hok|].
  intros Hno. destruct Hst as [H|H]; [contradiction|]. exact (proj1 (Hbad H)).
Qed.

Lemma createUser_stores_what_it_answers_witness :
  exists user,
    In user (users (snd (Server.createUser (Some "carol") "507f1f77bcf86cd799439013"
                           Sample.db)))
    /\ User.username user = "carol"
    /\ fst (Server.createUser (Some "carol") "507f1f77bcf86cd799439013" Sample.db)
       = ok [("username", JStr (User.username user)); ("_id", JStr (User._id user))]
    /\ (snd (Server.createUser (Some "carol") "507f1f77bcf86cd799439013" Sample.db)
        = Sample.db
        \/ (User._id user = "507f1f77bcf86cd799439013"
            /\ users (snd (Server.createUser (Some "carol") "507f1f77bcf86cd799439013"
                             Sample.db))
               = (users Sample.db ++ [user])%list
            /\ ~ In (User.username user) (map User.username (users Sample.db)))).
Proof.
  refine (proj1 (proj2 (createUser_stores_what_it_answers (Some "carol")
                          "507f1f77bcf86cd799439013" Sample.db)) _).
  vm_compute. reflexivity.
Defined.

(** *** What the collections keep satisfying *)

Lemma NoDup_app_one {A} (l : list A) (a : A) : NoDup l -> ~ In a l -> NoDup (l ++ [a]).
Proof.
  intros Hl Ha. apply NoDup_app; [assumption|repeat constructor; intros []| ].
  intros x Hx [<-|[]]. contradiction.
Qed.

Lemma consistent_empty : consistent emptyDb.
Proof. split; simpl; try constructor; intros ? []. Qed.

Lemma createUser_consistent username oid db :
  consistent db -> consistent (snd (Server.createUser username oid db)).
Proof.
  intros [Hn Hi He Hr Hg Hd]. rewrite createUser_step.
  destruct (JS.truthy username) eqn:Ht; cbn [negb]; [|split; assumption].
  cbv zeta. destruct (truthy_ToString _ Ht) as [_ Hne].
  destruct (User.findOne (users db) (JS.ToString username)) eqn:Hfind;
    [split; assumption|].
  destruct (existsb _ (users db)) eqn:Hid; [split; assumption|].
  split; cbn [snd users exercises].
  - rewrite map_app. apply NoDup_app_one; [assumption|]. apply findOne_None, Hfind.
  - rewrite map_app. apply NoDup_app_one; [assumption|].
    apply (existsb_id_false User._id oid), Hid.
  - assumption.
  - intros e Hin. destruct (Hr e Hin) as (u & Hu & Hid'). exists u.
    split; [apply in_or_app; left; assumption|assumption].
  - intros u Hu. apply in_app_or in Hu. destruct Hu as [Hu|[<-|[]]]; [auto|exact Hne].
  - assumption.
Qed.

Lemma addExercise_consistent rt userId description duration date now oid db :
  consistent db ->
  consistent (snd (Server.addExercise rt userId description duration date now oid db)).
Proof.
  intros Hc.
  destruct (addExercise_effect rt userId description duration date now oid db)
    as (Husers & Hok & Hno).
  destruct (Z.eq_dec
    (status (fst (Server.addExercise rt userId description duration date now oid db))) 200)
    as [H200|Hnot]; [|rewrite (Hno Hnot); assumption].
  destruct (Hok H200) as (user & e & Hfind & Hex & Hid & Hu & Hdesc & _ & _ & Hfresh).
  destruct Hc as [Hn Hi He Hr Hg Hd].
  assert (Hne : Exercise.description e <> "").
  { rewrite Hdesc. rewrite addExercise_cases in H200.
    destruct (JS.truthy description) eqn:Ht; [apply (truthy_ToString _ Ht)|].
    discriminate. }
  split; rewrite ?Husers, ?Hex; try assumption.
  - rewrite map_app. apply NoDup_app_one; [assumption|]. simpl. rewrite Hid. assumption.
  - intros x Hx. apply in_app_or in Hx. destruct Hx as [Hx|[<-|[]]]; [auto|].
    exists user. split; [apply (findById_cast _ _ _ _ Hfind)|symmetry; assumption].
  - intros x Hx. apply in_app_or in Hx. destruct Hx as [Hx|[<-|[]]]; auto.
Qed.

Lemma handle_consistent rt r db : consistent db -> consistent (snd (handle rt r db)).
Proof.
  intros Hc. destruct r; simpl.
  - apply createUser_consistent. assumption.
  - assumption.
  - apply addExercise_consistent. assumption.
  - rewrite (proj1 (reads_effect rt userId from to limit db)). assumption.
Qed.

Lemma run_cons rt r rs db :
  run rt (r :: rs) db
  = (fst (handle rt r db) :: fst (run rt rs (snd (handle rt r db))),
     snd (run rt rs (snd (handle rt r db)))).
Proof.
  simpl. destruct (handle rt r db) as [answer db']. simpl.
  destruct (run rt rs db') as [answers db'']. reflexivity.
Qed.

(** Whatever requests arrive, in whatever order and with whatever
    fields, a database that is consistent stays so: user names and
    identifiers stay unique, identifiers of exercises stay unique, every
    exercise keeps referring to a user of the collection, and no stored
    name or description is empty.  It holds of every database reached
    from the empty one. *)
Theorem run_keeps_consistent rt (rs : list request) db :
  consistent db -> consistent (snd (run rt rs db)).
Proof.
  revert db. induction rs as [|r rs IH]; intros db Hc; [exact Hc|].
  rewrite run_cons. simpl. apply IH, handle_consistent, Hc.
Qed.

Lemma run_keeps_consistent_witness :
  consistent
    (snd (run JS.utcHost
            [CreateUser (Some "alice") "507f1f77bcf86cd799439011";
             CreateUser (Some "alice") "507f1f77bcf86cd799439012";
             AddExercise "507f1f77bcf86cd799439011" (Some "run") (Some "30")
               (Some "2023-01-10") 1700000000000 "65a000000000000000000001";
             AddExercise "507f1f77bcf86cd799439012" (Some "run") (Some "30")
               None 1700000000000 "65a000000000000000000002";
             GetLog "507f1f77bcf86cd799439011" None None (Some "1");
             ListUsers]
            emptyDb)).
Proof. apply run_keeps_consistent. exact consistent_empty. Defined.

(** No request removes or changes what is stored: after any run of
    requests both collections are the ones before, with documents added
    at the end. *)
Theorem run_only_appends rt (rs : list request) db :
  extends (users (snd (run rt rs db))) (users db)
  /\ extends (exercises (snd (run rt rs db))) (exercises db).
Proof.
  revert db. induction rs as [|r rs IH]; intros db.
  - split; exists []; rewrite app_nil_r; reflexivity.
  - rewrite run_cons. cbn [snd].
    destruct (IH (snd (handle rt r db))) as [[us Hus] [es Hes]].
    assert (Hstep : extends (users (snd (handle rt r db))) (users db)
                    /\ extends (exercises (snd (handle rt r db))) (exercises db)).
    { destruct r; simpl.
      - pose proof (createUser_effect username oid db) as (Hst & Hex & Hok & Hbad).
        cbv zeta in *. rewrite Hex. split; [|exists []; rewrite app_nil_r; reflexivity].
        destruct Hst as [H|H].
        + destruct (Hok H) as (user & _ & _ & _ & [Heq|(_ & Happ & _)]).
          * rewrite Heq. exists []. rewrite app_nil_r. reflexivity.
          * exists [user]. exact Happ.
        + rewrite (proj1 (Hbad H)). exists []. rewrite app_nil_r. reflexivity.
      - split; exists []; rewrite app_nil_r; reflexivity.
      - destruct (addExercise_effect rt userId description duration date now oid db)
          as (Husers & Hok & Hno).
        rewrite Husers. split; [exists []; rewrite app_nil_r; reflexivity|].
        destruct (Z.eq_dec
          (status (fst (Server.addExercise rt userId description duration date now oid db)))
          200) as [H|H].
        + destruct (Hok H) as (user & e & _ & Happ & _). exists [e]. exact Happ.
        + rewrite (Hno H). exists []. rewrite app_nil_r. reflexivity.
      - rewrite (proj1 (reads_effect rt userId from to limit db)).
        split; exists []; rewrite app_nil_r; reflexivity. }
    destruct Hstep as [[us0 Hus0] [es0 Hes0]]. split.
    + exists (us0 ++ us)%list. rewrite Hus, Hus0, app_assoc. reflexivity.
    + exists (es0 ++ es)%list. rewrite Hes, Hes0, app_assoc. reflexivity.
Qed.

(** *** How the requests compose *)

Lemma find_app_new (coll : list User.doc) (u : User.doc) :
  ~ In (User._id u) (map User._id coll) ->
  find (fun v => (User._id v =? User._id u)%string) (coll ++ [u]) = Some u.
Proof.
  induction coll as [|v coll IH]; simpl; intros Hfresh.
  - rewrite String.eqb_refl. reflexivity.
  - destruct (String.eqb_spec (User._id v) (User._id u)) as [Heq|_]; [|apply IH; tauto].
    exfalso. apply Hfresh. left. assumption.
Qed.

Lemma windowOf_none rt oid gte lte db :
  (forall e, In e (exercises db) -> Exercise.userId e <> oid) ->
  windowOf rt oid gte lte db = [].
Proof.
  unfold windowOf. induction (exercises db) as [|e es IH]; intros Hno; [reflexivity|].
  simpl. destruct (String.eqb_spec (Exercise.userId e) oid) as [Heq|_].
  - exfalso. apply (Hno e); [left; reflexivity|assumption].
  - simpl. apply IH. intros x Hx. apply Hno. right. assumption.
Qed.

(** A user that has just been created has an empty log: when the name is
    new and the identifier drawn is unused and is its own canonical form,
    [createUser] answers with that name and identifier, and [getLog] for
    the identifier then answers 200 with the name, a count of 0 and no
    entry, in a database that was consistent. *)
Theorem created_user_has_empty_log rt db name oid :
  consistent db ->
  name <> "" ->
  ~ In name (map User.username (users db)) ->
  ~ In oid (map User._id (users db)) ->
  JS.castObjectId rt oid = Some oid ->
  let created := Server.createUser (Some name) oid db in
  fst created = ok [("username", JStr name); ("_id", JStr oid)]
  /\ Server.getLog rt oid None None None (snd created)
     = (ok [("_id", JStr oid); ("username", JStr name);
            ("count", JNum 0); ("log", JArr [])], snd created).
Proof.
  intros Hc Hname Hnew Hfresh Hcast created. unfold created.
  rewrite createUser_step. simpl JS.truthy.
  destruct (String.eqb_spec name ""); [contradiction|]. cbn [negb JS.ToString]. cbv zeta.
  rewrite (proj2 (findOne_None _ _) Hnew).
  rewrite (proj2 (existsb_id_false User._id oid (users db)) Hfresh).
  split; [reflexivity|]. cbn [snd].
  set (user := {| User._id := oid; User.username := name |}).
  set (db' := {| users := (users db ++ [user])%list; exercises := exercises db |}).
  assert (Hfind : User.findById rt (users db') oid = inr (Some user)).
  { unfold User.findById. rewrite Hcast. unfold db'. cbn [users]. f_equal.
    apply (find_app_new (users db) user). exact Hfresh. }
  rewrite (getLog_found _ _ _ _ _ _ _ Hfind).
  unfold dateBound, limitBound. cbn [JS.truthy].
  rewrite windowOf_none; [reflexivity|].
  intros e He Heq. destruct (exercises_refer db Hc e He) as (u & Hu & Hid).
  apply Hfresh. apply in_map_iff. exists u. split; [|assumption].
  rewrite Hid. exact Heq.
Qed.

Lemma consistent_sample : consistent Sample.db.
Proof.
  split.
  - repeat constructor; simpl; intuition discriminate.
  - repeat constructor; simpl; intuition discriminate.
  - repeat constructor; simpl; intuition discriminate.
  - intros e He. simpl in He.
    repeat (destruct He as [<-|He];
            [first [exists Sample.alice; split; [simpl; tauto|reflexivity]
                   |exists Sample.bob; split; [simpl; tauto|reflexivity]]|]).
    destruct He.
  - intros u Hu. simpl in Hu. repeat (destruct Hu as [<-|Hu]; [discriminate|]).
    destruct Hu.
  - intros e He. simpl in He. repeat (destruct He as [<-|He]; [discriminate|]).
    destruct He.
Qed.

Lemma created_user_has_empty_log_witness :
  Server.getLog JS.utcHost "507f1f77bcf86cd799439013" None None None
    (snd (Server.createUser (Some "carol") "507f1f77bcf86cd799439013" Sample.db))
  = (ok [("_id", JStr "507f1f77bcf86cd799439013"); ("username", JStr "carol");
         ("count", JNum 0); ("log", JArr [])],
     snd (Server.createUser (Some "carol") "507f1f77bcf86cd799439013" Sample.db)).
Proof.
  refine (proj2 (created_user_has_empty_log JS.utcHost Sample.db "carol"
                   "507f1f77bcf86cd799439013" consistent_sample _ _ _ _)).
  - discriminate.
  - simpl. intuition discriminate.
  - simpl. intuition discriminate.
  - vm_compute. reflexivity.
Defined.

Lemma windowOf_app_other rt oid gte lte (db : Db) (e : Exercise.doc) :
  Exercise.userId e <> oid ->
  windowOf rt oid gte lte
    {| users := users db; exercises := (exercises db ++ [e])%list |}
  = windowOf rt oid gte lte db.
Proof.
  intros Hu. unfold windowOf. cbn [exercises]. rewrite filter_app. simpl.
  destruct (String.eqb_spec (Exercise.userId e) oid); [contradiction|].
  simpl. apply app_nil_r.
Qed.

(** The log of a user is not changed by an exercise added for somebody
    else: when the two identifiers cast to different [ObjectId]s (or one
    of them does not cast), [getLog] for the one answers after the
    [addExercise] for the other what it answered before, whatever the
    fields of the two requests. *)
Theorem addExercise_leaves_other_logs rt db userId other from to limit
    description duration date now oid :
  JS.castObjectId rt userId <> JS.castObjectId rt other ->
  fst (Server.getLog rt other from to limit
         (snd (Server.addExercise rt userId description duration date now oid db)))
  = fst (Server.getLog rt other from to limit db).
Proof.
  intros Hdiff.
  destruct (addExercise_effect rt userId description duration date now oid db)
    as (Husers & Hok & Hno). cbv zeta in *.
  destruct (Z.eq_dec
    (status (fst (Server.addExercise rt userId description duration date now oid db))) 200)
    as [H200|Hnot]; [|rewrite (Hno Hnot); reflexivity].
  destruct (Hok H200) as (user & e & Hfind & Hex & _ & Hu & _).
  destruct (findById_cast _ _ _ _ Hfind) as [Hcast _].
  set (db' := snd (Server.addExercise rt userId description duration date now oid db)) in *.
  rewrite !getLog_cases, Husers.
  destruct (User.findById rt (users db) other) as [err|[found|]] eqn:Hother;
    try reflexivity.
  destruct (findById_cast _ _ _ _ Hother) as [Hcast' _].
  assert (Hw : forall gte lte,
            windowOf rt (User._id found) gte lte db'
            = windowOf rt (User._id found) gte lte db).
  { intros gte lte.
    assert (Hne : Exercise.userId e <> User._id found).
    { rewrite Hu. intros Heq. apply Hdiff. rewrite Hcast, Hcast', Heq. reflexivity. }
    rewrite <- (windowOf_app_other rt _ gte lte db e Hne).
    unfold windowOf. cbn [exercises]. rewrite Hex. reflexivity. }
  destruct (dateBound rt from); [|reflexivity].
  destruct (dateBound rt to); [|reflexivity].
  destruct (limitBound limit); [|reflexivity].
  cbn [fst]. rewrite Hw. reflexivity.
Qed.

Lemma addExercise_leaves_other_logs_witness :
  fst (Server.getLog JS.utcHost "507f1f77bcf86cd799439011" None None None
         (snd (Server.addExercise JS.utcHost "507f1f77bcf86cd799439012" (Some "bike")
                 (Some "30") None 1700000000000 "65a000000000000000000007" Sample.db)))
  = fst (Server.getLog JS.utcHost "507f1f77bcf86cd799439011" None None None Sample.db).
Proof.
  refine (addExercise_leaves_other_logs JS.utcHost Sample.db
            "507f1f77bcf86cd799439012" "507f1f77bcf86cd799439011" None None None
            (Some "bike") (Some "30") None 1700000000000 "65a000000000000000000007" _).
  vm_compute. discriminate.
Defined.

(** *** Empty fields *)

Lemma truthy_given v : JS.truthy (given v) = JS.truthy v.
Proof. unfold given. destruct (JS.truthy v) eqn:H; [exact H|reflexivity]. Qed.

Lemma given_truthy v : JS.truthy v = true -> given v = v.
Proof. unfold given. intros ->. reflexivity. Qed.

Lemma dateBound_given rt v : dateBound rt (given v) = dateBound rt v.
Proof.
  unfold dateBound. rewrite truthy_given.
  destruct (JS.truthy v) eqn:H; [rewrite (given_truthy _ H)|]; reflexivity.
Qed.

Lemma limitBound_given v : limitBound (given v) = limitBound v.
Proof.
  unfold limitBound. rewrite truthy_given.
  destruct (JS.truthy v) eqn:H; [rewrite (given_truthy _ H)|]; reflexivity.
Qed.

(** A field sent empty is a field not sent: the three handlers that take
    fields answer, and write, the same when every empty string among the
    fields is replaced by an absent field.  So a form submitted with its
    optional inputs left blank is a request without them. *)
Theorem empty_fields_are_absent rt db userId from to limit
    description duration date now oid username :
  Server.getLog rt userId from to limit db
  = Server.getLog rt userId (given from) (given to) (given limit) db
  /\ Server.addExercise rt userId description duration date now oid db
     = Server.addExercise rt userId (given description) (given duration) (given date)
         now oid db
  /\ Server.createUser username oid db = Server.createUser (given username) oid db.
Proof.
  split; [|split].
  - rewrite !getLog_cases, !dateBound_given, limitBound_given. reflexivity.
  - rewrite !addExercise_cases, !truthy_given.
    destruct (JS.truthy description) eqn:Hd; [|reflexivity].
    destruct (JS.truthy duration) eqn:Hn; [|reflexivity].
    rewrite (given_truthy _ Hd), (given_truthy _ Hn).
    assert (Hdate : dateOrNow rt (given date) now = dateOrNow rt date now).
    { unfold given, dateOrNow. destruct date as [s|]; [|reflexivity].
      cbn [JS.truthy]. destruct (s =? "")%string eqn:E; cbn [negb orb];
        rewrite ?E; reflexivity. }
    rewrite Hdate. reflexivity.
  - rewrite !createUser_cases, truthy_given.
    destruct (JS.truthy username) eqn:Hu; [|reflexivity].
    rewrite (given_truthy _ Hu). reflexivity.
Qed.

(** *** Windows that hold nothing *)

Lemma filter_none {A} (f : A -> bool) (l : list A) :
  (forall x, In x l -> f x = false) -> filter f l = [].
Proof.
  induction l as [|a l IH]; intros H; [reflexivity|]. simpl.
  rewrite (H a (or_introl eq_refl)). apply IH. intros x Hx. apply H. right. exact Hx.
Qed.

(** A window that is the wrong way round, or that ends before the first
    exercise of the user, is not an error: when the day of [to] lies
    before the day of [from], or before the day of every exercise of the
    user, [getLog] answers 200 with a count of 0 and an empty log. *)
Theorem getLog_empty_window rt db userId user from to limit gte t lim :
  User.findById rt (users db) userId = inr (Some user) ->
  dateBound rt from = Some gte ->
  dateBound rt to = Some (Some t) ->
  limitBound limit = Some lim ->
  (exists f, gte = Some f /\ dayOf rt t < dayOf rt f)
  \/ (forall e, In e (exercises db) -> Exercise.userId e = User._id user ->
                dayOf rt t < dayOf rt (Exercise.date e)) ->
  Server.getLog rt userId from to limit db
  = (ok [("_id", JStr (User._id user)); ("username", JStr (User.username user));
         ("count", JNum 0); ("log", JArr [])], db).
Proof.
  intros Hfind Hfrom Hto Hlim Hempty.
  rewrite (getLog_found _ _ _ _ _ _ _ Hfind), Hfrom, Hto, Hlim.
  assert (Hw : windowOf rt (User._id user) gte (Some t) db = []).
  { unfold windowOf. apply filter_none. intros e He.
    destruct (String.eqb_spec (Exercise.userId e) (User._id user)) as [Hu|_];
      [|reflexivity].
    cbn [andb]. unfold inWindow. apply andb_false_iff.
    destruct Hempty as [(f & -> & Hday)|Hall].
    - destruct (Z.leb_spec f (Exercise.date e)) as [Hle|_]; [|left; reflexivity].
      right. apply Z.leb_gt.
      assert (dayOf rt f <= dayOf rt (Exercise.date e)); [|lia].
      unfold dayOf, JS.Day, JS.LocalTime, JS.msPerDay.
      apply Z.div_le_mono; lia.
    - right. apply Z.leb_gt. apply Hall; assumption. }
  rewrite Hw. unfold Exercise.applyLimit.
  destruct lim as [n|]; [destruct (n =? 0); [|rewrite firstn_nil]|]; reflexivity.
Qed.

Lemma getLog_empty_window_witness :
  Server.getLog JS.utcHost "507f1f77bcf86cd799439011" (Some "2023-01-10")
    (Some "2023-01-01") None Sample.db
  = (ok [("_id", JStr "507f1f77bcf86cd799439011"); ("username", JStr "alice");
         ("count", JNum 0); ("log", JArr [])], Sample.db).
Proof.
  refine (getLog_empty_window JS.utcHost Sample.db "507f1f77bcf86cd799439011"
            Sample.alice (Some "2023-01-10") (Some "2023-01-01") None
            (Some 1673308800000) 1672531200000 None _ _ _ _ _).
  - vm_compute. reflexivity.
  - vm_compute. reflexivity.
  - vm_compute. reflexivity.
  - vm_compute. reflexivity.
  - left. exists 1673308800000. split; vm_compute; reflexivity.
Defined.

(** *** The log in part and in full *)

Lemma subsequence_refl {A} (l : list A) : subsequence l l.
Proof. induction l; [apply sub_nil|apply sub_keep; assumption]. Qed.

Lemma subsequence_firstn {A} (k : nat) (l : list A) : subsequence (firstn k l) l.
Proof.
  revert k. induction l as [|a l IH]; intros [|k]; simpl.
  - constructor.
  - constructor.
  - apply sub_skip. apply (IH 0%nat).
  - apply sub_keep. apply IH.
Qed.

Lemma subsequence_filter_weaker {A} (f g : A -> bool) (l : list A) :
  (forall x, f x = true -> g x = true) -> subsequence (filter f l) (filter g l).
Proof.
  intros Himp. induction l as [|a l IH]; simpl; [constructor|].
  destruct (f a) eqn:Hf.
  - rewrite (Himp a Hf). apply sub_keep. assumption.
  - destruct (g a); [apply sub_skip|]; assumption.
Qed.

Lemma subsequence_map {A B} (h : A -> B) (l l' : list A) :
  subsequence l l' -> subsequence (map h l) (map h l').
Proof.
  induction 1; simpl; [apply sub_nil|apply sub_skip|apply sub_keep]; assumption.
Qed.

Lemma subsequence_trans {A} (l1 l2 l3 : list A) :
  subsequence l1 l2 -> subsequence l2 l3 -> subsequence l1 l3.
Proof.
  intros H12 H23. revert l1 H12.
  induction H23 as [|x l2 l3 H IH|x l2 l3 H IH]; intros l1 H12.
  - exact H12.
  - apply sub_skip. apply IH. exact H12.
  - inversion H12; subst.
    + apply sub_skip. apply IH. assumption.
    + apply sub_keep. apply IH. assumption.
Qed.

Lemma subsequence_length {A} (l l' : list A) :
  subsequence l l' -> (List.length l <= List.length l')%nat.
Proof. induction 1; simpl; lia. Qed.

Lemma applyLimit_firstn {A} (lim : option Z) (l : list A) :
  exists k, Exercise.applyLimit lim l = firstn k l.
Proof.
  unfold Exercise.applyLimit. destruct lim as [n|].
  - destruct (n =? 0); [|eexists; reflexivity].
    exists (List.length l). symmetry. apply firstn_all.
  - exists (List.length l). symmetry. apply firstn_all.
Qed.

(** Whatever the bounds and the limit, a log that [getLog] answers with
    is part of the full log of the user, in the same order: it is a
    prefix of the log for the same bounds without the limit, which is the
    full log with entries left out; its count is its length and never
    exceeds the count of the full log. *)
Theorem getLog_shows_part_of_full_log rt db userId from to limit :
  status (fst (Server.getLog rt userId from to limit db)) = 200 ->
  exists full windowed shown k,
    member "log" (body (fst (Server.getLog rt userId None None None db)))
    = Some (JArr full)
    /\ member "log" (body (fst (Server.getLog rt userId from to None db)))
       = Some (JArr windowed)
    /\ member "log" (body (fst (Server.getLog rt userId from to limit db)))
       = Some (JArr shown)
    /\ member "count" (body (fst (Server.getLog rt userId from to limit db)))
       = Some (JNum (Z.of_nat (List.length shown)))
    /\ shown = firstn k windowed
    /\ subsequence windowed full
    /\ (List.length shown <= List.length full)%nat.
Proof.
  rewrite !getLog_cases.
  destruct (User.findById rt (users db) userId) as [err|[user|]]; try discriminate.
  destruct (dateBound rt from) as [gte|]; [|discriminate].
  destruct (dateBound rt to) as [lte|]; [|discriminate].
  destruct (limitBound limit) as [lim|]; [|discriminate].
  intros _. unfold dateBound, limitBound. cbn [JS.truthy fst].
  destruct (applyLimit_firstn lim (windowOf rt (User._id user) gte lte db)) as [k Hk].
  assert (Hsub : subsequence (map (entryOf rt) (windowOf rt (User._id user) gte lte db))
                   (map (entryOf rt) (windowOf rt (User._id user) None None db))).
  { apply subsequence_map. unfold windowOf. apply subsequence_filter_weaker.
    intros e He. apply andb_true_iff in He. rewrite (proj1 He). reflexivity. }
  exists (map (entryOf rt) (windowOf rt (User._id user) None None db)),
    (map (entryOf rt) (windowOf rt (User._id user) gte lte db)),
    (map (entryOf rt)
       (Exercise.applyLimit lim (windowOf rt (User._id user) gte lte db))), k.
  split; [reflexivity|]. split; [reflexivity|]. split; [reflexivity|].
  split; [reflexivity|]. rewrite Hk, <- firstn_map.
  split; [reflexivity|]. split; [exact Hsub|].
  apply subsequence_length.
  eapply subsequence_trans; [apply subsequence_firstn|exact Hsub].
Qed.

Lemma getLog_shows_part_of_full_log_witness :
  exists full windowed shown k,
    member "log" (body (fst (Server.getLog JS.utcHost "507f1f77bcf86cd799439011"
                               None None None Sample.db)))
    = Some (JArr full)
    /\ member "log" (body (fst (Server.getLog JS.utcHost "507f1f77bcf86cd799439011"
                                  (Some "2023-01-10") None None Sample.db)))
       = Some (JArr windowed)
    /\ member "log" (body (fst (Server.getLog JS.utcHost "507f1f77bcf86cd799439011"
                                  (Some "2023-01-10") None (Some "2") Sample.db)))
       = Some (JArr shown)
    /\ member "count" (body (fst (Server.getLog JS.utcHost "507f1f77bcf86cd799439011"
                                    (Some "2023-01-10") None (Some "2") Sample.db)))
       = Some (JNum (Z.of_nat (List.length shown)))
    /\ shown = firstn k windowed
    /\ subsequence windowed full
    /\ (List.length shown <= List.length full)%nat.
Proof.
  refine (getLog_shows_part_of_full_log JS.utcHost Sample.db
            "507f1f77bcf86cd799439011" (Some "2023-01-10") None (Some "2") _).
  vm_compute. reflexivity.
Defined.

(** *** The checks of [addExercise], in the order they are made *)

Lemma addExerciseBody_text rt userId description duration date now oid db :
  date <> NotText true ->
  let asField :=
    match date with
    | Text s => Some s
    | _ => None
    end in
  addExerciseBody rt userId description duration date now oid db
  = (Answered (fst (Server.addExercise rt userId description duration asField now oid db)),
     snd (Server.addExercise rt userId description duration asField now oid db)).
Proof.
  intros Hdate. cbv zeta. unfold addExerciseBody.
  destruct date as [|s|[|]]; try contradiction;
    match goal with
    | |- context [Server.addExercise ?r ?u ?d ?n ?f ?t ?o ?b] =>
        destruct (Server.addExercise r u d n f t o b) as [answer db'] eqn:Hrun
    end;
    rewrite addExercise_cases in Hrun;
    destruct (negb (JS.truthy description) || negb (JS.truthy duration));
    try (injection Hrun as <- <-; reflexivity);
    destruct (JS.parseInt (JS.ToString duration));
    try (injection Hrun as <- <-; reflexivity);
    reflexivity.
Qed.

(** The body is checked first: a request with an empty description or
    duration, or a duration without a leading integer, is answered 400
    and nothing is written, whatever the identifier and the date.  Next
    comes the date: one that is truthy and not a string makes the handler
    throw before the database is read, so nothing is answered and nothing
    written.  Only then is the user looked up: a malformed identifier is
    answered 400 and an unknown one 404, with nothing written.  For a
    date that is a string, absent or falsy, the request is answered as
    [Server.addExercise] answers it. *)
Theorem addExercise_order_of_checks rt userId description duration date now oid db :
  let result := addExerciseBody rt userId description duration date now oid db in
  let bodyPasses :=
    JS.truthy description && JS.truthy duration
    && match JS.parseInt (JS.ToString duration) with Some _ => true | None => false end in
  (bodyPasses = false ->
   (exists message, fst result = Answered (error 400 message)) /\ snd result = db)
  /\ (bodyPasses = true -> date = NotText true -> result = (Threw, db))
  /\ (bodyPasses = true -> date <> NotText true ->
      (forall err, User.findById rt (users db) userId = inl err ->
                   result = (Answered (error 400 "Invalid user ID format"), db))
      /\ (User.findById rt (users db) userId = inr None ->
          result = (Answered (error 404 "User not found"), db)))
  /\ (date <> NotText true ->
      result
      = (Answered (fst (Server.addExercise rt userId description duration
                          match date with Text s => Some s | _ => None end now oid db)),
         snd (Server.addExercise rt userId description duration
                match date with Text s => Some s | _ => None end now oid db))).
Proof.
  cbv zeta. split; [|split; [|split]].
  - unfold addExerciseBody.
    destruct (JS.truthy description); cbn [negb orb andb];
      [|intros _; split; [eexists; reflexivity|reflexivity]].
    destruct (JS.truthy duration); cbn [negb orb andb];
      [|intros _; split; [eexists; reflexivity|reflexivity]].
    destruct (JS.parseInt (JS.ToString duration)) as [n|]; [discriminate|].
    intros _; split; [eexists; reflexivity|reflexivity].
  - intros Hbody ->. unfold addExerciseBody.
    destruct (JS.truthy description); [|discriminate].
    destruct (JS.truthy duration); [|discriminate].
    cbn [negb orb andb] in *.
    destruct (JS.parseInt (JS.ToString duration)) as [n|]; [reflexivity|discriminate].
  - intros Hbody Hdate. rewrite (addExerciseBody_text _ _ _ _ _ _ _ _ Hdate).
    cbv zeta. rewrite addExercise_cases.
    destruct (JS.truthy description); [|discriminate].
    destruct (JS.truthy duration); [|discriminate].
    cbn [negb orb andb] in *.
    destruct (JS.parseInt (JS.ToString duration)) as [n|]; [|discriminate].
    split.
    + intros err Hfind. rewrite Hfind. reflexivity.
    + intros Hfind. rewrite Hfind. reflexivity.
  - intros Hdate. exact (addExerciseBody_text _ _ _ _ _ _ _ _ Hdate).
Qed.

Lemma addExercise_order_of_checks_witness :
  addExerciseBody JS.utcHost "507f1f77bcf86cd799439012" (Some "bike") (Some "30")
    (NotText true) 1700000000000 "65a000000000000000000007" Sample.db
  = (Threw, Sample.db).
Proof.
  refine (proj1 (proj2 (addExercise_order_of_checks JS.utcHost
                          "507f1f77bcf86cd799439012" (Some "bike") (Some "30")
                          (NotText true) 1700000000000 "65a000000000000000000007"
                          Sample.db)) _ _).
  - vm_compute. reflexivity.
  - reflexivity.
Defined.

(** *** A date that parses *)

(** When the date submitted is not blank and parses, the exercise is
    stored with the parsed time value and shown with its rendering, and
    the clock plays no part: the answer and the database are the same for
    any two clock readings. *)
Theorem addExercise_parsed_date_ignores_clock rt userId description duration s t
    now now' oid db :
  JS.trim s <> "" ->
  JS.Date_parse rt s = Some t ->
  Server.addExercise rt userId description duration (Some s) now oid db
  = Server.addExercise rt userId description duration (Some s) now' oid db
  /\ (status (fst (Server.addExercise rt userId description duration (Some s) now oid db))
      = 200 ->
      exists e,
        exercises (snd (Server.addExercise rt userId description duration (Some s)
                          now oid db))
        = (exercises db ++ [e])%list
        /\ Exercise.date e = t
        /\ member "date"
             (body (fst (Server.addExercise rt userId description duration (Some s)
                           now oid db)))
           = Some (JStr (JS.toDateString rt t))).
Proof.
  intros Hblank Hparse.
  assert (Hdate : forall clock, dateOrNow rt (Some s) clock = t).
  { intros clock. unfold dateOrNow.
    destruct (String.eqb_spec s "") as [->|_]; [exfalso; apply Hblank; reflexivity|].
    destruct (String.eqb_spec (JS.trim s) ""); [contradiction|].
    cbn [orb]. rewrite Hparse. reflexivity. }
  split.
  - rewrite !addExercise_cases, !Hdate. reflexivity.
  - rewrite addExercise_cases, Hdate.
    destruct (negb (JS.truthy description) || negb (JS.truthy duration));
      [discriminate|].
    destruct (JS.parseInt (JS.ToString duration)) as [n|]; [|discriminate].
    destruct (User.findById rt (users db) userId) as [err|[user|]]; try discriminate.
    cbv zeta. destruct (Exercise.save _ _) as [err|coll] eqn:Hsave; [discriminate|].
    intros _. eexists. split; [exact (save_appends _ _ _ Hsave)|].
    split; reflexivity.
Qed.

Lemma addExercise_parsed_date_ignores_clock_witness :
  Server.addExercise JS.utcHost "507f1f77bcf86cd799439012" (Some "bike") (Some "30")
    (Some "2020-02-02") 1700000000000 "65a000000000000000000007" Sample.db
  = Server.addExercise JS.utcHost "507f1f77bcf86cd799439012" (Some "bike") (Some "30")
      (Some "2020-02-02") 0 "65a000000000000000000007" Sample.db.
Proof.
  refine (proj1 (addExercise_parsed_date_ignores_clock JS.utcHost
                   "507f1f77bcf86cd799439012" (Some "bike") (Some "30") "2020-02-02"
                   1580601600000 1700000000000 0 "65a000000000000000000007" Sample.db
                   _ _)).
  - vm_compute. discriminate.
  - vm_compute. reflexivity.
Defined.

(** ** The second application

    Its handlers beside those of [src/server.js]. *)

Lemma App2_addExercise_cases rt userId description duration date now oid db :
  App2.addExercise rt userId description duration date now oid db =
  if negb (JS.truthy description) || negb (JS.truthy duration)
  then (error 400 "Descripcion y duracion son requeridas.", db)
  else
    match User.findById rt (users db) userId with
    | inl _ => (error 400 "ID de usuario invalido", db)
    | inr None => (error 404 "Usuario no encontrado con ese ID", db)
    | inr (Some user) =>
        match (if JS.truthy date then JS.Date_parse rt (JS.ToString date) else Some now) with
        | None => (error 400 "Formato de fecha invalido", db)
        | Some t =>
            match JS.parseInt (JS.ToString duration) with
            | None => (error 400 "La duracion debe ser un numero positivo.", db)
            | Some n =>
                if n <=? 0
                then (error 400 "La duracion debe ser un numero positivo.", db)
                else
                  let e := newExercise user (JS.ToString description) n t oid in
                  match Exercise.save (exercises db) e with
                  | inr coll =>
                      (ok [("_id", JStr (User._id user));
                           ("username", JStr (User.username user));
                           ("date", JStr (JS.toDateString rt t));
                           ("duration", JNum n);
                           ("description", JStr (JS.ToString description))],
                       {| users := users db; exercises := coll |})
                  | inl _ => (error 500 "Error al guardar el ejercicio", db)
                  end
            end
        end
    end.
Proof.
  unfold App2.addExercise, tryCatch, bind, awaitRead, awaitWrite, saveExercise.
  destruct (negb (JS.truthy description) || negb (JS.truthy duration)); [reflexivity|].
  unfold User.findById. destruct (JS.castObjectId rt userId) as [cast|]; [|reflexivity].
  destruct (find _ (users db)) as [user|]; [|reflexivity].
  destruct (JS.truthy date);
    [destruct (JS.Date_parse rt (JS.ToString date)) as [t|]; [|reflexivity]|];
    cbn [ret send];
    (destruct (JS.parseInt (JS.ToString duration)) as [n|]; [|reflexivity];
     destruct (n <=? 0); [reflexivity|];
     cbv zeta; unfold newExercise, Exercise.save, ret;
     cbn [Exercise._id Exercise.userId Exercise.description Exercise.duration
            Exercise.date];
     destruct (JS.ToString description =? "")%string; [reflexivity|];
     destruct (existsb _ (exercises db)); reflexivity).
Qed.

(** The second application writes exactly when it answers 200, and what
    it then appends is one exercise with a duration above zero, a
    description that is not empty, the identifier of the user found, and
    the parsed date when one was sent, the clock reading otherwise. *)
Theorem App2_addExercise_stores_valid rt userId description duration date now oid db :
  let answer := fst (App2.addExercise rt userId description duration date now oid db) in
  let db' := snd (App2.addExercise rt userId description duration date now oid db) in
  users db' = users db
  /\ (status answer <> 200 -> db' = db)
  /\ (status answer = 200 ->
      exists user e,
        User.findById rt (users db) userId = inr (Some user)
        /\ exercises db' = (exercises db ++ [e])%list
        /\ Exercise.userId e = User._id user
        /\ 0 < Exercise.duration e
        /\ Exercise.description e <> ""
        /\ (if JS.truthy date
            then JS.Date_parse rt (JS.ToString date) = Some (Exercise.date e)
            else Exercise.date e = now)).
Proof.
  cbv zeta. rewrite App2_addExercise_cases.
  destruct (JS.truthy description) eqn:Hd; cbn [negb orb];
    [|split; [reflexivity|split; [reflexivity|discriminate]]].
  destruct (JS.truthy duration); cbn [negb orb];
    [|split; [reflexivity|split; [reflexivity|discriminate]]].
  destruct (User.findById rt (users db) userId) as [err|[user|]];
    try (split; [reflexivity|split; [reflexivity|discriminate]]).
  destruct (JS.truthy date) eqn:Hdate;
    [destruct (JS.Date_parse rt (JS.ToString date)) as [t|];
       [|split; [reflexivity|split; [reflexivity|discriminate]]]|];
    (destruct (JS.parseInt (JS.ToString duration)) as [n|];
       [|split; [reflexivity|split; [reflexivity|discriminate]]];
     destruct (Z.leb_spec n 0) as [Hle|Hpos];
       [split; [reflexivity|split; [reflexivity|discriminate]]|];
     cbv zeta; destruct (Exercise.save _ _) as [err|coll] eqn:Hsave;
       [split; [reflexivity|split; [reflexivity|discriminate]]|];
     split; [reflexivity|]; split; [intros Hc; exfalso; apply Hc; reflexivity|];
     intros _; exists user; eexists; split; [reflexivity|];
     split; [exact (save_appends _ _ _ Hsave)|];
     split; [reflexivity|]; split; [exact Hpos|];
     split; [apply (truthy_ToString _ Hd)|reflexivity]).
Qed.

Lemma App2_addExercise_stores_valid_witness :
  exists user e,
    User.findById JS.utcHost (users Sample.db) "507f1f77bcf86cd799439012"
    = inr (Some user)
    /\ exercises (snd (App2.addExercise JS.utcHost "507f1f77bcf86cd799439012"
                         (Some "bike") (Some "30") None 1700000000000
                         "65a000000000000000000007" Sample.db))
       = (exercises Sample.db ++ [e])%list
    /\ Exercise.userId e = User._id user
    /\ 0 < Exercise.duration e
    /\ Exercise.description e <> ""
    /\ Exercise.date e = 1700000000000.
Proof.
  refine (proj2 (proj2 (App2_addExercise_stores_valid JS.utcHost
                          "507f1f77bcf86cd799439012" (Some "bike") (Some "30") None
                          1700000000000 "65a000000000000000000007" Sample.db)) _).
  vm_compute. reflexivity.
Defined.

(** What the second application accepts, [src/server.js] accepts too:
    when the second application answers 200, [src/server.js] answers the
    same request with the same members (in another order) and leaves the
    same database, on a host where a blank date does not parse. *)
Theorem App2_accepts_less rt userId description duration date now oid db :
  (JS.truthy date = true -> JS.trim (JS.ToString date) = "" ->
   JS.Date_parse rt (JS.ToString date) = None) ->
  status (fst (App2.addExercise rt userId description duration date now oid db)) = 200 ->
  snd (Server.addExercise rt userId description duration date now oid db)
  = snd (App2.addExercise rt userId description duration date now oid db)
  /\ forall key,
       member key (body (fst (Server.addExercise rt userId description duration date
                                now oid db)))
       = member key (body (fst (App2.addExercise rt userId description duration date
                                  now oid db))).
Proof.
  intros Hblank. rewrite App2_addExercise_cases, addExercise_cases.
  destruct (negb (JS.truthy description) || negb (JS.truthy duration)); [discriminate|].
  destruct (User.findById rt (users db) userId) as [err|[user|]]; try discriminate.
  assert (Hdate : forall t,
    (if JS.truthy date then JS.Date_parse rt (JS.ToString date) else Some now) = Some t ->
    dateOrNow rt date now = t).
  { intros t. unfold dateOrNow. destruct date as [s|]; cbn [JS.truthy JS.ToString] in *.
    - destruct (String.eqb_spec s "") as [->|_]; cbn [negb orb].
      + intros H. injection H as <-. reflexivity.
      + destruct (String.eqb_spec (JS.trim s) "") as [Ht|_].
        * rewrite (Hblank eq_refl Ht). discriminate.
        * intros ->. reflexivity.
    - intros H. injection H as <-. reflexivity. }
  destruct (if JS.truthy date then JS.Date_parse rt (JS.ToString date) else Some now)
    as [t|]; [|discriminate].
  rewrite (Hdate t eq_refl).
  destruct (JS.parseInt (JS.ToString duration)) as [n|]; [|discriminate].
  destruct (n <=? 0); [discriminate|].
  cbv zeta. destruct (Exercise.save _ _) as [err|coll]; [discriminate|].
  intros _. split; [reflexivity|]. intros key.
  unfold exerciseResponse, member, ok, newExercise. cbn -[String.eqb].
  destruct (String.eqb_spec "_id" key) as [<-|_]; [reflexivity|].
  destruct (String.eqb_spec "username" key) as [<-|_]; [reflexivity|].
  destruct (String.eqb_spec "description" key) as [<-|_]; [reflexivity|].
  destruct (String.eqb_spec "duration" key) as [<-|_]; [reflexivity|].
  destruct (String.eqb_spec "date" key) as [<-|_]; reflexivity.
Qed.

Lemma App2_accepts_less_witness :
  snd (Server.addExercise JS.utcHost "507f1f77bcf86cd799439012" (Some "bike")
         (Some "30") (Some "2020-02-02") 1700000000000 "65a000000000000000000007"
         Sample.db)
  = snd (App2.addExercise JS.utcHost "507f1f77bcf86cd799439012" (Some "bike")
           (Some "30") (Some "2020-02-02") 1700000000000 "65a000000000000000000007"
           Sample.db).
Proof.
  refine (proj1 (App2_accepts_less JS.utcHost "507f1f77bcf86cd799439012" (Some "bike")
                   (Some "30") (Some "2020-02-02") 1700000000000
                   "65a000000000000000000007" Sample.db _ _)).
  - intros _ H. vm_compute in H. discriminate H.
  - vm_compute. reflexivity.
Defined.

(** The two copies of [createUser] follow the same policy: they leave the
    same database and answer with the same status, and the same body
    when the status is 200 (their error messages differ). *)
Theorem App2_createUser_agrees username oid db :
  snd (App2.createUser username oid db) = snd (Server.createUser username oid db)
  /\ status (fst (App2.createUser username oid db))
     = status (fst (Server.createUser username oid db))
  /\ (status (fst (Server.createUser username oid db)) = 200 ->
      fst (App2.createUser username oid db) = fst (Server.createUser username oid db)).
Proof.
  rewrite createUser_cases.
  unfold App2.createUser, tryCatch, bind, awaitRead, awaitWrite, saveUser, send, ret.
  destruct (negb (JS.truthy username));
    [split; [reflexivity|split; [reflexivity|discriminate]]|].
  cbv zeta. destruct (User.findOne (users db) (JS.ToString username));
    [split; [reflexivity|split; [reflexivity|intros _; reflexivity]]|].
  destruct (User.save (users db)
              {| User._id := oid; User.username := JS.ToString username |})
    as [err|coll]; [|split; [reflexivity|split; [reflexivity|intros _; reflexivity]]].
  destruct (isDuplicateKey err); (split; [reflexivity|split; [reflexivity|discriminate]]).
Qed.

Lemma App2_createUser_agrees_witness :
  fst (App2.createUser (Some "carol") "507f1f77bcf86cd799439013" Sample.db)
  = fst (Server.createUser (Some "carol") "507f1f77bcf86cd799439013" Sample.db).
Proof.
  refine (proj2 (proj2 (App2_createUser_agrees (Some "carol")
                          "507f1f77bcf86cd799439013" Sample.db)) _).
  vm_compute. reflexivity.
Defined.

Lemma findWhere_none undefinedBound oid coll :
  App2.findWhere undefinedBound oid None coll
  = inr (filter (fun e => (Exercise.userId e =? oid)%string) coll).
Proof.
  induction coll as [|e coll IH]; [reflexivity|].
  cbn [App2.findWhere App2.dateMatches]. rewrite IH. simpl.
  rewrite andb_true_r. reflexivity.
Qed.

Lemma findWhere_both undefinedBound oid lo hi coll :
  App2.findWhere undefinedBound oid (Some (Some lo, Some hi)) coll
  = inr (filter (fun e => (Exercise.userId e =? oid)%string
                          && ((lo <=? Exercise.date e) && (Exercise.date e <=? hi)))
                coll).
Proof.
  induction coll as [|e coll IH]; [reflexivity|].
  cbn [App2.findWhere App2.dateMatches App2.compareBound]. rewrite IH. reflexivity.
Qed.

(** The limit as the second application reads it: a positive integer or
    none. *)
Lemma App2_getLog_cases undefinedBound rt userId from to limit db :
  App2.getLog rt undefinedBound userId from to limit db =
  match User.findById rt (users db) userId with
  | inl _ => (error 400 "ID de usuario invalido", db)
  | inr None => (error 404 "Usuario no encontrado con ese ID", db)
  | inr (Some user) =>
      match dateBound rt from with
      | None => (error 400 "Formato de fecha 'from' invalido (YYYY-MM-DD)", db)
      | Some gte =>
          match dateBound rt to with
          | None => (error 400 "Formato de fecha 'to' invalido (YYYY-MM-DD)", db)
          | Some lte =>
              let range := match gte, lte with
                           | None, None => None
                           | _, _ => Some (gte, lte)
                           end in
              let lim := match JS.parseInt (JS.ToString limit) with
                         | Some n => if 0 <? n then Some n else None
                         | None => None
                         end in
              match App2.findWhere undefinedBound (User._id user) range (exercises db) with
              | inl err =>
                  (if isCastErrorOnId err then error 400 "ID de usuario invalido"
                   else error 500 "Error al obtener los logs del ejercicio", db)
              | inr docs =>
                  (logResponse user (map (entryOf rt) (Exercise.applyLimit lim docs)), db)
              end
          end
      end
  end.
Proof.
  unfold App2.getLog, tryCatch, bind, awaitRead, dateBound, User.findById.
  destruct (JS.castObjectId rt userId) as [cast|]; [|reflexivity].
  destruct (find _ (users db)) as [user|]; [|reflexivity].
  destruct (JS.truthy from); [destruct (JS.Date_parse rt (JS.ToString from)) as [f|]|];
    try reflexivity;
  (destruct (JS.truthy to); [destruct (JS.Date_parse rt (JS.ToString to)) as [t|]|];
    try reflexivity);
  cbn [ret send]; cbv zeta;
  (destruct (App2.findWhere undefinedBound (User._id user) _ (exercises db))
     as [err|docs]; reflexivity).
Qed.

(** With both bounds given, the second application shows the exercises
    of the user whose date lies between the two parsed instants, both
    included, cut to a positive limit: the upper bound is the instant
    itself, so nothing later on the day of [to] is shown.  The answer
    does not depend on what Mongoose makes of an undefined bound. *)
Theorem App2_getLog_two_bounds undefinedBound rt db userId user from to limit f t :
  User.findById rt (users db) userId = inr (Some user) ->
  dateBound rt from = Some (Some f) ->
  dateBound rt to = Some (Some t) ->
  let between :=
    filter (fun e => (Exercise.userId e =? User._id user)%string
                     && ((f <=? Exercise.date e) && (Exercise.date e <=? t)))
           (exercises db) in
  let lim := match JS.parseInt (JS.ToString limit) with
             | Some n => if 0 <? n then Some n else None
             | None => None
             end in
  App2.getLog rt undefinedBound userId from to limit db
  = (logResponse user (map (entryOf rt) (Exercise.applyLimit lim between)), db)
  /\ forall e, In e between -> f <= Exercise.date e <= t.
Proof.
  intros Hfind Hfrom Hto between lim. split.
  - rewrite App2_getLog_cases, Hfind, Hfrom, Hto. cbv zeta.
    rewrite findWhere_both. reflexivity.
  - intros e He. apply filter_In in He. destruct He as [_ He].
    apply andb_true_iff in He. destruct He as [_ He].
    apply andb_true_iff in He. destruct He as [H1 H2].
    apply Z.leb_le in H1, H2. lia.
Qed.

Lemma App2_getLog_two_bounds_witness :
  App2.getLog JS.utcHost (inr false) "507f1f77bcf86cd799439011"
    (Some "2023-01-10") (Some "2023-01-10") (Some "0") Sample.db
  = (logResponse Sample.alice
       [JObj [("description", JStr "run"); ("duration", JNum 30);
              ("date", JStr "Tue Jan 10 2023")]],
     Sample.db).
Proof.
  refine (eq_trans
    (proj1 (App2_getLog_two_bounds (inr false) JS.utcHost Sample.db
              "507f1f77bcf86cd799439011" Sample.alice (Some "2023-01-10")
              (Some "2023-01-10") (Some "0") 1673308800000 1673308800000 _ _ _)) _);
    vm_compute; reflexivity.
Defined.

(** The second application never refuses a limit: one that is not a
    number, or is zero or negative, is answered as the request without a
    limit is. *)
Theorem App2_getLog_limit_lenient undefinedBound rt db userId from to limit :
  (forall n, JS.parseInt (JS.ToString limit) = Some n -> n <= 0) ->
  App2.getLog rt undefinedBound userId from to limit db
  = App2.getLog rt undefinedBound userId from to None db.
Proof.
  intros Hlimit. rewrite !App2_getLog_cases.
  assert (Hlim : match JS.parseInt (JS.ToString limit) with
                 | Some n => if 0 <? n then Some n else None
                 | None => None
                 end = None).
  { destruct (JS.parseInt (JS.ToString limit)) as [n|]; [|reflexivity].
    specialize (Hlimit n eq_refl). destruct (Z.ltb_spec 0 n); [lia|reflexivity]. }
  rewrite Hlim. reflexivity.
Qed.

Lemma App2_getLog_limit_lenient_witness :
  App2.getLog JS.utcHost (inr false) "507f1f77bcf86cd799439011" None None (Some "-3")
    Sample.db
  = App2.getLog JS.utcHost (inr false) "507f1f77bcf86cd799439011" None None None
      Sample.db.
Proof.
  refine (App2_getLog_limit_lenient (inr false) JS.utcHost Sample.db
            "507f1f77bcf86cd799439011" None None (Some "-3") _).
  intros n H. vm_compute in H. injection H as <-. discriminate.
Defined.

(** Without date bounds the two applications give the same answer to a
    log request for a user that exists, whenever [src/server.js] does not
    refuse the limit. *)
Theorem App2_getLog_agrees_without_bounds undefinedBound rt db userId user from to limit lim :
  User.findById rt (users db) userId = inr (Some user) ->
  JS.truthy from = false ->
  JS.truthy to = false ->
  limitBound limit = Some lim ->
  App2.getLog rt undefinedBound userId from to limit db
  = Server.getLog rt userId from to limit db.
Proof.
  intros Hfind Hfrom Hto Hlim.
  rewrite App2_getLog_cases, getLog_cases, Hfind. unfold dateBound.
  rewrite Hfrom, Hto, Hlim. cbv zeta. rewrite findWhere_none.
  assert (Hsame : match JS.parseInt (JS.ToString limit) with
                  | Some n => if 0 <? n then Some n else None
                  | None => None
                  end = lim).
  { unfold limitBound in Hlim. destruct limit as [[|c s]|]; cbn [JS.truthy] in Hlim.
    - injection Hlim as <-. reflexivity.
    - cbn [String.eqb negb] in Hlim.
      destruct (JS.parseInt (JS.ToString (Some (String c s)))) as [n|].
      + destruct (0 <? n); [injection Hlim as <-; reflexivity|discriminate].
      + injection Hlim as <-. reflexivity.
    - injection Hlim as <-. reflexivity. }
  rewrite Hsame. unfold windowOf, inWindow. do 4 f_equal.
  apply filter_ext. intros e. rewrite !andb_true_r. reflexivity.
Qed.

Lemma App2_getLog_agrees_without_bounds_witness :
  App2.getLog JS.utcHost (inr false) "507f1f77bcf86cd799439011" None (Some "") (Some "2")
    Sample.db
  = Server.getLog JS.utcHost "507f1f77bcf86cd799439011" None (Some "") (Some "2")
      Sample.db.
Proof.
  refine (App2_getLog_agrees_without_bounds (inr false) JS.utcHost Sample.db
            "507f1f77bcf86cd799439011" Sample.alice None (Some "") (Some "2") (Some 2)
            _ _ _ _); vm_compute; reflexivity.
Defined.

(** ** The router

    The log of the router is read off [array.filter] and [array.slice],
    with nothing checked. *)

Lemma firstn_subtract {A} (l : list A) (n : Z) :
  n < 0 ->
  Router.slice0 l (Some n) = firstn (List.length l - Z.abs_nat n) l.
Proof.
  intros Hn. unfold Router.slice0. destruct (Z.ltb_spec n 0); [|lia]. f_equal. lia.
Qed.

(** A limit that is present is handed to [slice] as [parseInt] reads it:
    a limit that is not a number, or is zero, empties the log; a negative
    limit drops that many entries from the end; a positive one keeps that
    many from the front.  A log shorter than the limit is kept whole. *)
Theorem Router_limit_is_a_slice rt (log : list Router.entry) from to limit :
  JS.truthy limit = true ->
  let unlimited := Router.queryLog rt log from to None in
  Router.queryLog rt log from to limit
  = match JS.parseInt (JS.ToString limit) with
    | None => []
    | Some n =>
        if n <? 0
        then firstn (List.length unlimited - Z.abs_nat n) unlimited
        else firstn (Z.to_nat n) unlimited
    end.
Proof.
  intros Ht unlimited. unfold unlimited, Router.queryLog. rewrite Ht.
  cbn [JS.truthy].
  set (l := if JS.truthy to then _ else _).
  destruct (JS.parseInt (JS.ToString limit)) as [n|].
  - destruct (Z.ltb_spec n 0) as [Hneg|Hpos].
    + apply firstn_subtract. exact Hneg.
    + unfold Router.slice0. destruct (Z.ltb_spec n 0); [lia|].
      destruct (Z.le_ge_cases n (Z.of_nat (List.length l))).
      * rewrite Z.min_l by assumption. reflexivity.
      * rewrite Z.min_r by assumption. rewrite Nat2Z.id.
        rewrite firstn_all, firstn_all2; [reflexivity|lia].
  - unfold Router.slice0. cbn [Z.ltb Z.compare].
    rewrite Z.min_l by lia. reflexivity.
Qed.

Lemma Router_limit_is_a_slice_witness :
  Router.queryLog JS.utcHost
    [{| Router.description := "run"; Router.duration := 30;
        Router.date := 1673308800000 |};
     {| Router.description := "row"; Router.duration := 15;
        Router.date := 1673352000000 |}] None None (Some "-1")
  = [{| Router.description := "run"; Router.duration := 30;
        Router.date := 1673308800000 |}].
Proof.
  refine (eq_trans
    (Router_limit_is_a_slice JS.utcHost
       [{| Router.description := "run"; Router.duration := 30;
           Router.date := 1673308800000 |};
        {| Router.description := "row"; Router.duration := 15;
           Router.date := 1673352000000 |}] None None (Some "-1") _) _);
    vm_compute; reflexivity.
Defined.

(** A bound that is present and does not parse hides every entry: the
    router compares each date with an invalid date, which is never true,
    and answers with an empty log where [src/server.js] answers 400. *)
Theorem Router_unparsable_bound_hides_all rt (log : list Router.entry) from to limit :
  (JS.truthy from = true /\ JS.Date_parse rt (JS.ToString from) = None)
  \/ (JS.truthy to = true /\ JS.Date_parse rt (JS.ToString to) = None) ->
  Router.queryLog rt log from to limit = [].
Proof.
  intros Hbad. unfold Router.queryLog.
  assert (Hempty :
    (if JS.truthy to
     then filter (fun ex => match JS.Date_parse rt (JS.ToString to) with
                            | Some toDate => Router.date ex <=? toDate
                            | None => false
                            end)
            (if JS.truthy from
             then filter (fun ex => match JS.Date_parse rt (JS.ToString from) with
                                    | Some fromDate => fromDate <=? Router.date ex
                                    | None => false
                                    end) log
             else log)
     else if JS.truthy from
          then filter (fun ex => match JS.Date_parse rt (JS.ToString from) with
                                 | Some fromDate => fromDate <=? Router.date ex
                                 | None => false
                                 end) log
          else log) = []).
  { destruct Hbad as [[Ht Hp]|[Ht Hp]]; rewrite Ht, Hp.
    - rewrite (filter_none (fun _ => false) log) by reflexivity.
      destruct (JS.truthy to); reflexivity.
    - apply filter_none. reflexivity. }
  rewrite Hempty.
  destruct (JS.truthy limit); [|reflexivity].
  unfold Router.slice0. cbn [List.length Z.of_nat].
  apply firstn_nil.
Qed.

Lemma Router_unparsable_bound_hides_all_witness :
  Router.queryLog JS.utcHost
    [{| Router.description := "run"; Router.duration := 30;
        Router.date := 1673308800000 |}] (Some "yesterday") None None
  = [].
Proof.
  refine (Router_unparsable_bound_hides_all JS.utcHost _ (Some "yesterday") None None _).
  left. split; vm_compute; reflexivity.
Defined.

Lemma subsequence_filter {A} (f : A -> bool) (l : list A) : subsequence (filter f l) l.
Proof.
  induction l as [|a l IH]; simpl; [apply sub_nil|].
  destruct (f a); [apply sub_keep|apply sub_skip]; assumption.
Qed.

Lemma queryLog_subsequence rt (log : list Router.entry) from to limit :
  subsequence (Router.queryLog rt log from to limit) log.
Proof.
  unfold Router.queryLog.
  set (l1 := if JS.truthy from then _ else log).
  assert (H1 : subsequence l1 log).
  { unfold l1. destruct (JS.truthy from);
      [apply subsequence_filter|apply subsequence_refl]. }
  set (l2 := if JS.truthy to then _ else l1).
  assert (H2 : subsequence l2 log).
  { unfold l2. destruct (JS.truthy to); [|exact H1].
    eapply subsequence_trans; [apply subsequence_filter|exact H1]. }
  destruct (JS.truthy limit); [|exact H2].
  eapply subsequence_trans; [apply subsequence_firstn|exact H2].
Qed.

(** The router answers a log request only for a user it finds, and then
    with 200: the count is the number of entries shown, and the entries
    are those of the stored log with some left out, in the stored order.
    For an identifier that names no user, or is malformed, it sends no
    answer at all. *)
Theorem Router_getLog_answers rt (coll : list Router.doc) id from to limit :
  match Router.findById rt coll id with
  | Some user =>
      exists shown,
        subsequence shown (Router.log user)
        /\ Router.getLog rt coll id from to limit
           = Some (ok [("username", JStr (Router.username user));
                       ("count", JNum (Z.of_nat (List.length shown)));
                       ("_id", JStr (Router._id user));
                       ("log",
                        JArr (map (fun e =>
                                     JObj [("description", JStr (Router.description e));
                                           ("duration", JNum (Router.duration e));
                                           ("date",
                                            JStr (JS.toDateString rt (Router.date e)))])
                                  shown))])
  | None => Router.getLog rt coll id from to limit = None
  end.
Proof.
  unfold Router.getLog. destruct (Router.findById rt coll id) as [user|]; [|reflexivity].
  exists (Router.queryLog rt (Router.log user) from to limit).
  split; [apply queryLog_subsequence|reflexivity].
Qed.

(** ** Dates in and out

    The day, month and year that a date-only string names are the ones
    the answer shows. *)

Lemma year_of_era_back yoe doy :
  0 <= yoe <= 399 -> 0 <= doy <= 365 ->
  (doy = 365 -> (yoe + 1) mod 4 = 0 /\ ((yoe + 1) mod 100 <> 0 \/ yoe = 399)) ->
  let doe := yoe * 365 + yoe / 4 - yoe / 100 + doy in
  0 <= doe <= 146096
  /\ (doe - doe / 1460 + doe / 36524 - doe / 146096) / 365 = yoe.
Proof.
  intros Hy Hd Hl doe. subst doe. Z.div_mod_to_equations. lia.
Qed.

(** The day number of a date of the calendar gives the date back, in
    every year. *)
Lemma civil_round_trip y m d :
  1 <= m <= 12 -> 1 <= d <= JS.DaysInMonth y m ->
  JS.civil_from_days (JS.days_from_civil y m d) = (y, m, d).
Proof.
  intros Hm Hd.
  unfold JS.days_from_civil. cbv zeta.
  set (y' := if m <=? 2 then y - 1 else y).
  set (era := y' / 400).
  set (yoe := y' - era * 400).
  set (mp := if 2 <? m then m - 3 else m + 9).
  set (doy := (153 * mp + 2) / 5 + d - 1).
  assert (Hyoe : 0 <= yoe <= 399) by (unfold yoe, era; Z.div_mod_to_equations; lia).
  assert (Hy' : y' = yoe + era * 400) by (unfold yoe; lia).
  assert (Hmp : 0 <= mp <= 11 /\ m = (if mp <? 10 then mp + 3 else mp - 9)
                /\ ((m <=? 2) = negb (mp <? 10))).
  { unfold mp. destruct (Z.ltb_spec 2 m).
    - destruct (Z.ltb_spec (m - 3) 10); destruct (Z.leb_spec m 2); simpl; lia.
    - destruct (Z.ltb_spec (m + 9) 10); destruct (Z.leb_spec m 2); simpl; lia. }
  assert (Hleapy : m = 2 -> d = 29 ->
            (yoe + 1) mod 4 = 0 /\ ((yoe + 1) mod 100 <> 0 \/ yoe = 399)).
  { intros -> ->. unfold JS.DaysInMonth, JS.InLeapYear in Hd. simpl in Hd.
    assert (Hy : y = yoe + 1 + era * 400) by (unfold y' in Hy'; simpl in Hy'; lia).
    destruct (Z.eqb_spec (y mod 4) 0); destruct (Z.eqb_spec (y mod 100) 0);
      destruct (Z.eqb_spec (y mod 400) 0); simpl in Hd; try lia;
      rewrite Hy in *; Z.div_mod_to_equations; lia. }
  assert (Hdim : d <= (if m =? 2 then 29
                       else if (m =? 4) || (m =? 6) || (m =? 9) || (m =? 11)
                            then 30 else 31)).
  { unfold JS.DaysInMonth in Hd. destruct (m =? 2); [destruct (JS.InLeapYear y)|]; lia. }
  assert (Hdoy : 0 <= doy <= 365 /\ (doy = 365 -> m = 2 /\ d = 29)
                 /\ (5 * doy + 2) / 153 = mp
                 /\ doy - (153 * mp + 2) / 5 + 1 = d).
  { unfold doy.
    assert (Hc : mp = 0 \/ mp = 1 \/ mp = 2 \/ mp = 3 \/ mp = 4 \/ mp = 5 \/ mp = 6
                 \/ mp = 7 \/ mp = 8 \/ mp = 9 \/ mp = 10 \/ mp = 11) by lia.
    destruct Hmp as (_ & Hmm & _).
    repeat (destruct Hc as [Hc|Hc]); rewrite Hc in *; simpl in Hmm; subst m;
      simpl in Hdim; Z.div_mod_to_equations; lia. }
  destruct Hdoy as (Hdoy & H365 & Hmp' & Hd').
  destruct (year_of_era_back yoe doy Hyoe Hdoy) as [Hdoe Hback].
  { intros H. destruct (H365 H). auto. }
  assert (Hyy : y = if m <=? 2 then y' + 1 else y').
  { unfold y'. destruct (m <=? 2); lia. }
  clearbody doy mp yoe era y'.
  unfold JS.civil_from_days. cbv zeta.
  set (doe := yoe * 365 + yoe / 4 - yoe / 100 + doy) in *.
  replace (era * 146097 + doe - 719468 + 719468) with (doe + era * 146097) by lia.
  assert (Hera : (doe + era * 146097) / 146097 = era).
  { rewrite Z.div_add by lia. rewrite Z.div_small by lia. lia. }
  rewrite Hera.
  replace (doe + era * 146097 - era * 146097) with doe by lia.
  rewrite Hback.
  replace (doe - (365 * yoe + yoe / 4 - yoe / 100)) with doy by (unfold doe; lia).
  rewrite Hmp', Hd'.
  destruct Hmp as (_ & Hmm & Hle). rewrite <- Hmm, Hle.
  f_equal. f_equal.
  rewrite <- Hy', Hyy, Hle. destruct (mp <? 10); reflexivity.
Qed.

Lemma parseDigits_nonneg (s : string) (acc : option Z) (n : Z) :
  (forall a, acc = Some a -> 0 <= a) ->
  JS.parseDigits 10 s acc = Some n -> 0 <= n.
Proof.
  revert acc. induction s as [|c s IH]; intros acc Hacc; cbn [JS.parseDigits].
  - intros H. apply Hacc. exact H.
  - destruct (JS.digitValue c) as [v|] eqn:Hv; [|intros H; apply Hacc; exact H].
    destruct (Z.ltb_spec v 10) as [Hlt|Hge]; [|intros H; apply Hacc; exact H].
    apply IH. intros a Ha. injection Ha as <-.
    assert (Hv0 : 0 <= v).
    { unfold JS.digitValue in Hv.
      repeat match type of Hv with
             | (if ?b then _ else _) = _ =>
                 let E := fresh "E" in
                 destruct b eqn:E;
                 [apply andb_true_iff in E; destruct E as [E _];
                  apply Z.leb_le in E; injection Hv as <-; lia|]
             end.
      discriminate. }
    destruct acc as [a0|].
    + specialize (Hacc a0 eq_refl).
      assert (H10 : 0 <= 10 * a0 + v) by lia. exact H10.
    + assert (H10 : 0 <= 10 * 0 + v) by lia. exact H10.
Qed.

(** What the date-only form gives: the three numbers it is written with,
    a month and a day of the calendar, and midnight UTC of that day. *)
Lemma parseISODate_parts (s : string) (t : Z) :
  JS.parseISODate s = Some t ->
  exists y m d,
    JS.decimal (substring 0 4 s) = Some y
    /\ JS.decimal (substring 5 2 s) = Some m
    /\ JS.decimal (substring 8 2 s) = Some d
    /\ 0 <= y /\ 1 <= m <= 12 /\ 1 <= d <= JS.DaysInMonth y m
    /\ t = JS.days_from_civil y m d * JS.msPerDay.
Proof.
  unfold JS.parseISODate.
  destruct ((String.length s =? 10)%nat && (substring 4 1 s =? "-")%string
            && (substring 7 1 s =? "-")%string); [|discriminate].
  destruct (JS.decimal (substring 0 4 s)) as [y|] eqn:Hy; [|discriminate].
  destruct (JS.decimal (substring 5 2 s)) as [m|]; [|discriminate].
  destruct (JS.decimal (substring 8 2 s)) as [d|]; [|discriminate].
  destruct ((1 <=? m) && (m <=? 12) && (1 <=? d) && (d <=? JS.DaysInMonth y m)) eqn:Hv;
    [|discriminate].
  intros H. injection H as <-. exists y, m, d.
  apply andb_true_iff in Hv. destruct Hv as [Hv H4].
  apply andb_true_iff in Hv. destruct Hv as [Hv H3].
  apply andb_true_iff in Hv. destruct Hv as [H1 H2].
  apply Z.leb_le in H1, H2, H3, H4.
  repeat split; try assumption.
  unfold JS.decimal in Hy. destruct (_ && _) in Hy; [|discriminate].
  apply (parseDigits_nonneg (substring 0 4 s) None y); [discriminate|exact Hy].
Qed.

(** The rendering of midnight UTC of a day of the calendar, on a host
    whose local time is UTC or ahead of it. *)
Lemma toDateString_of_civil rt y m d :
  0 <= JS.LocalTZA rt < JS.msPerDay ->
  0 <= y -> 1 <= m <= 12 -> 1 <= d <= JS.DaysInMonth y m ->
  let t := JS.days_from_civil y m d * JS.msPerDay in
  JS.toDateString rt t
  = JS.weekdayName (JS.WeekDay t) ++ " " ++ JS.monthName (m - 1) ++ " "
    ++ JS.ToZeroPaddedDecimalString d 2 ++ " " ++ JS.ToZeroPaddedDecimalString y 4.
Proof.
  intros Hz Hy Hm Hd t.
  assert (Hday : JS.Day t = JS.days_from_civil y m d).
  { unfold JS.Day, t, JS.msPerDay. apply Z.div_mul. lia. }
  assert (Hlocal : JS.Day (JS.LocalTime rt t) = JS.Day t).
  { unfold JS.LocalTime. rewrite Hday. unfold JS.Day, t, JS.msPerDay in *.
    rewrite Z.add_comm, Z.div_add by lia. rewrite Z.div_small by lia. lia. }
  unfold JS.toDateString. rewrite (DateString_Day _ t Hlocal).
  unfold JS.DateString, JS.YearFromTime, JS.MonthFromTime, JS.DateFromTime.
  rewrite Hday, (civil_round_trip y m d Hm Hd). cbn [fst snd].
  destruct (Z.leb_spec 0 y); [|lia]. rewrite Z.abs_eq by lia. reflexivity.
Qed.

Lemma trimStart_empty s :
  JS.trimStart s = "" -> forallb JS.isWhiteSpace (list_ascii_of_string s) = true.
Proof.
  induction s as [|c s IH]; simpl; [reflexivity|].
  destruct (JS.isWhiteSpace c); [exact IH|discriminate].
Qed.

Lemma trimStart_head s c r : JS.trimStart s = String c r -> JS.isWhiteSpace c = false.
Proof.
  induction s as [|a s IH]; simpl; [discriminate|].
  destruct (JS.isWhiteSpace a) eqn:Ha; [exact IH|].
  intros H. injection H as <- _. exact Ha.
Qed.

Lemma reverse_empty s : JS.reverse s = "" -> s = "".
Proof.
  unfold JS.reverse. destruct s as [|c s]; [reflexivity|]. simpl.
  destruct (rev (list_ascii_of_string s) ++ [c])%list eqn:E; [|discriminate].
  destruct (rev (list_ascii_of_string s)); discriminate.
Qed.

(** [trim] gives the empty string only for a string of white space. *)
Lemma trim_empty s :
  JS.trim s = "" -> forallb JS.isWhiteSpace (list_ascii_of_string s) = true.
Proof.
  unfold JS.trim, JS.trimEnd. intros H. apply reverse_empty in H.
  apply trimStart_empty in H. unfold JS.reverse in H.
  rewrite list_ascii_of_string_of_list_ascii in H.
  assert (Hall : forallb JS.isWhiteSpace (list_ascii_of_string (JS.trimStart s)) = true).
  { apply forallb_forall. intros c Hc. rewrite forallb_forall in H.
    apply H. apply in_rev. rewrite rev_involutive. exact Hc. }
  destruct (JS.trimStart s) as [|c r] eqn:E; [apply trimStart_empty; exact E|].
  simpl in Hall. rewrite (trimStart_head _ _ _ E) in Hall. discriminate.
Qed.

Lemma digit_is_not_white_space c : JS.isDigit c = true -> JS.isWhiteSpace c = false.
Proof.
  unfold JS.isDigit, JS.isWhiteSpace. set (n := Z.of_N (N_of_ascii c)).
  intros H. apply andb_true_iff in H. destruct H as [H1 H2].
  apply Z.leb_le in H1, H2.
  destruct (Z.leb_spec n 13); [lia|]. rewrite andb_false_r.
  destruct (Z.eqb_spec n 32); [lia|]. destruct (Z.eqb_spec n 160); [lia|].
  reflexivity.
Qed.

Lemma parseISODate_not_blank s t : JS.parseISODate s = Some t -> JS.trim s <> "".
Proof.
  intros Hparse Hblank. apply trim_empty in Hblank.
  destruct (parseISODate_parts s t Hparse) as (y & _ & _ & Hy & _).
  unfold JS.decimal in Hy.
  destruct (forallb JS.isDigit (list_ascii_of_string (substring 0 4 s))) eqn:Hd;
    [|discriminate].
  destruct s as [|c s]; [discriminate|].
  simpl in Hd, Hblank.
  apply andb_true_iff in Hd. destruct Hd as [Hd _].
  rewrite (digit_is_not_white_space c Hd) in Hblank. discriminate.
Qed.

(** A date submitted in the form [YYYY-MM-DD], read by the engine as the
    standard has it (midnight UTC of that day), comes back in a 200
    answer of [addExercise] with the day, the month and the year it was
    written with, on a host whose local time is UTC or ahead of it: the
    month by its name, the day in two digits, the year in four. *)
Theorem addExercise_echoes_ISO_date rt userId description duration s t now oid db :
  0 <= JS.LocalTZA rt < JS.msPerDay ->
  JS.parseISODate s = Some t ->
  JS.Date_parse rt s = Some t ->
  status (fst (Server.addExercise rt userId description duration (Some s) now oid db))
  = 200 ->
  exists y m d,
    JS.decimal (substring 0 4 s) = Some y
    /\ JS.decimal (substring 5 2 s) = Some m
    /\ JS.decimal (substring 8 2 s) = Some d
    /\ member "date"
         (body (fst (Server.addExercise rt userId description duration (Some s)
                       now oid db)))
       = Some (JStr (JS.weekdayName (JS.WeekDay t) ++ " " ++ JS.monthName (m - 1)
                     ++ " " ++ JS.ToZeroPaddedDecimalString d 2
                     ++ " " ++ JS.ToZeroPaddedDecimalString y 4)).
Proof.
  intros Hzone Hiso Hparse H200.
  destruct (parseISODate_parts s t Hiso) as (y & m & d & Hy & Hm & Hd & Hy0 & Hmr & Hdr & Ht).
  exists y, m, d. repeat (split; [assumption|]).
  assert (Hdate : dateOrNow rt (Some s) now = t).
  { unfold dateOrNow.
    destruct (String.eqb_spec s "") as [->|_]; [discriminate|].
    destruct (String.eqb_spec (JS.trim s) "") as [Hb|_];
      [exfalso; exact (parseISODate_not_blank s t Hiso Hb)|].
    cbn [orb]. rewrite Hparse. reflexivity. }
  revert H200. rewrite addExercise_cases, Hdate.
  destruct (negb (JS.truthy description) || negb (JS.truthy duration));
    [discriminate|].
  destruct (JS.parseInt (JS.ToString duration)) as [n|]; [|discriminate].
  destruct (User.findById rt (users db) userId) as [err|[user|]]; try discriminate.
  cbv zeta. destruct (Exercise.save _ _) as [err|coll]; [discriminate|].
  intros _. unfold exerciseResponse, newExercise. cbn -[JS.toDateString String.append].
  rewrite Ht. rewrite (toDateString_of_civil rt y m d Hzone Hy0 Hmr Hdr).
  reflexivity.
Qed.

Lemma addExercise_echoes_ISO_date_witness :
  exists y m d,
    JS.decimal (substring 0 4 "1990-01-01") = Some y
    /\ JS.decimal (substring 5 2 "1990-01-01") = Some m
    /\ JS.decimal (substring 8 2 "1990-01-01") = Some d
    /\ member "date"
         (body (fst (Server.addExercise JS.utcHost "507f1f77bcf86cd799439012"
                       (Some "bike") (Some "30") (Some "1990-01-01") 1700000000000
                       "65a000000000000000000007" Sample.db)))
       = Some (JStr (JS.weekdayName (JS.WeekDay 631152000000) ++ " "
                     ++ JS.monthName (m - 1)
                     ++ " " ++ JS.ToZeroPaddedDecimalString d 2
                     ++ " " ++ JS.ToZeroPaddedDecimalString y 4)).
Proof.
  refine (addExercise_echoes_ISO_date JS.utcHost "507f1f77bcf86cd799439012"
            (Some "bike") (Some "30") "1990-01-01" 631152000000 1700000000000
            "65a000000000000000000007" Sample.db _ _ _ _).
  - vm_compute. split; [discriminate|reflexivity].
  - vm_compute. reflexivity.
  - vm_compute. reflexivity.
  - vm_compute. reflexivity.
Defined.

(** On a host in UTC the upper bound of the log covers the day it names
    and no more: with [to] in the form [YYYY-MM-DD], the log holds the
    exercises of the user from the instant [from] on and before the next
    midnight UTC after [to], the first instant of the following day
    excluded. *)
Theorem getLog_covers_the_day_on_UTC_host rt db userId user from s t gte :
  JS.LocalTZA rt = 0 ->
  User.findById rt (users db) userId = inr (Some user) ->
  dateBound rt from = Some gte ->
  JS.parseISODate s = Some t ->
  JS.Date_parse rt s = Some t ->
  Server.getLog rt userId from (Some s) None db
  = (logResponse user
       (map (entryOf rt)
          (filter (fun e => (Exercise.userId e =? User._id user)%string
                            && (match gte with
                                | Some f => f <=? Exercise.date e
                                | None => true
                                end
                                && (Exercise.date e <? t + JS.msPerDay)))
                  (exercises db))), db).
Proof.
  intros Hzone Hfind Hfrom Hiso Hparse.
  assert (Hto : dateBound rt (Some s) = Some (Some t)).
  { unfold dateBound. cbn [JS.truthy JS.ToString].
    destruct (String.eqb_spec s "") as [->|_]; [discriminate|].
    cbn [negb]. rewrite Hparse. reflexivity. }
  rewrite (getLog_found _ _ _ _ _ _ _ Hfind), Hfrom, Hto.
  unfold limitBound, Exercise.applyLimit, windowOf, inWindow. cbn [JS.truthy].
  do 3 f_equal. apply filter_ext. intros e. do 2 f_equal.
  destruct (parseISODate_parts s t Hiso) as (y & m & d & _ & _ & _ & _ & _ & _ & Ht).
  unfold dayOf, JS.LocalTime, JS.Day. rewrite Hzone, !Z.add_0_r, Ht.
  unfold JS.msPerDay. rewrite Z.div_mul by lia.
  set (days := JS.days_from_civil y m d).
  destruct (Z.ltb_spec (Exercise.date e) (days * 86400000 + 86400000));
    [apply Z.leb_le|apply Z.leb_gt]; Z.div_mod_to_equations; lia.
Qed.

Lemma getLog_covers_the_day_on_UTC_host_witness :
  Server.getLog JS.utcHost "507f1f77bcf86cd799439011" None (Some "2023-01-10") None
    Sample.db
  = (logResponse Sample.alice
       [JObj [("description", JStr "walk"); ("duration", JNum 20);
              ("date", JStr "Mon Jan 09 2023")];
        JObj [("description", JStr "run"); ("duration", JNum 30);
              ("date", JStr "Tue Jan 10 2023")];
        JObj [("description", JStr "row"); ("duration", JNum 15);
              ("date", JStr "Tue Jan 10 2023")];
        JObj [("description", JStr "lift"); ("duration", JNum 40);
              ("date", JStr "Tue Jan 10 2023")]],
     Sample.db).
Proof.
  refine (eq_trans
    (getLog_covers_the_day_on_UTC_host JS.utcHost Sample.db "507f1f77bcf86cd799439011"
       Sample.alice None "2023-01-10" 1673308800000 None _ _ _ _ _) _);
    vm_compute; reflexivity.
Defined.

(** ** The date of an exercise in the two applications (C7) *)




(** ** Creating a user through the router (C9) *)

(** The router saves whatever name it is given.  When the name is stored
    already and the identifier drawn is new, a unique index makes the
    save fail, the handler throws and nothing is answered; without the
    index a second user of that name is stored and answered.  In neither
    case is the answer the stored user. *)
Lemma RouterPost_createUser_taken_name unique name oid coll existing :
  In existing coll -> Router.username existing = name ->
  ~ In oid (map Router._id coll) ->
  RouterPost.createUser unique name oid coll
  = (if unique then (None, coll)
     else (Some (ok [("username", JStr name); ("_id", JStr oid)]),
           (coll ++ [{| Router._id := oid; Router.username := name;
                        Router.log := [] |}])%list))
  /\ oid <> Router._id existing.
Proof.
  intros Hin Hname Hfresh. split.
  - unfold RouterPost.createUser, RouterPost.save. cbn [Router._id Router.username].
    rewrite (proj2 (existsb_id_false Router._id oid coll) Hfresh). cbn [orb].
    assert (Htaken : existsb (fun v => (Router.username v =? name)%string) coll = true).
    { apply existsb_exists. exists existing. split; [exact Hin|].
      apply String.eqb_eq. exact Hname. }
    rewrite Htaken. destruct unique; reflexivity.
  - intros ->. apply Hfresh. apply in_map. exact Hin.
Qed.

(** C9.  The router of [src/unnamed/part_000] does not return the stored
    user for a name that exists: it saves a new document without looking
    the name up.  With a unique index on the name the save is rejected
    and no answer is sent; without it a second user of the name is stored
    and answered under a new identifier.  [src/server.js] and the second
    application answer the same request with the stored user and write
    nothing. *)
Theorem Router_createUser_saves_without_lookup :
  RouterPost.createUser true "alice" "65a000000000000000000099" RouterPost.sample
  = (None, RouterPost.sample)
  /\ RouterPost.createUser false "alice" "65a000000000000000000099" RouterPost.sample
     = (Some (ok [("username", JStr "alice");
                  ("_id", JStr "65a000000000000000000099")]),
        (RouterPost.sample
         ++ [{| Router._id := "65a000000000000000000099"; Router.username := "alice";
                Router.log := [] |}])%list)
  /\ Server.createUser (Some "alice") "65a000000000000000000099" Sample.db
     = (ok [("username", JStr "alice"); ("_id", JStr "507f1f77bcf86cd799439011")],
        Sample.db)
  /\ App2.createUser (Some "alice") "65a000000000000000000099" Sample.db
     = (ok [("username", JStr "alice"); ("_id", JStr "507f1f77bcf86cd799439011")],
        Sample.db).
Proof. vm_compute. repeat split. Qed.
